(** * Quick Brush Size: the accelerating key handler and its settings store

    A shallow embedding of [quick_brush_size.py] (class
    [AcceleratingKeyHandler]), [settings_manager.py] (class [SettingsManager])
    and the threshold check box of [docker.py]
    ([ThresholdSettingRow._on_checkbox_changed]).

    Conventions.
    - Python floats (timestamps, intervals, brush sizes) are rationals [Q]:
      the comparisons and subtractions of the source are exact here, rounding
      and overflow of IEEE doubles are outside the model.
    - Python ints are [Z].
    - A handler object lives in a heap [gmap nat Handler]; a reference to a
      handler ([paired_handler], the store's [_handlers] list) is its address.
    - What the plugin asks of Krita, of the clock and of [math.exp] is the
      interface [Env]; every method takes the host state and gives it back.
    - A [QTimer] is its active flag, its interval and its single-shot flag;
      the event loop firing a timer is [timer_timeout] / [burst_timer_timeout]. *)

From Stdlib Require Import ZArith QArith Qabs Qminmax Lqa Lia.
From stdpp Require Import base gmap strings list fin_maps.

Close Scope Q_scope.
Local Open Scope string_scope.
Local Open Scope Z_scope.

(** ** Python numbers *)

(** [a < b], [a >= b], [a == b] on floats. *)
Definition Qlt_bool (a b : Q) : bool := negb (Qle_bool b a).
Definition Qge_bool (a b : Q) : bool := Qle_bool b a.
Definition Qgt_bool (a b : Q) : bool := negb (Qle_bool a b).

(** [int(x)] on a float: truncation toward zero. *)
Definition py_int (x : Q) : Z := Z.quot (Qnum x) (Z.pos (Qden x)).

(** A value held by the settings dictionary: [bool], [int] or [float]. *)
Inductive value :=
  | VBool (b : bool)
  | VInt (z : Z)
  | VFloat (q : Q).

(** [bool(v)], [int(v)] and [float(v)]. *)
Definition to_bool (v : value) : bool :=
  match v with
  | VBool b => b
  | VInt z => negb (Z.eqb z 0)
  | VFloat q => negb (Qeq_bool q 0)
  end.

Definition to_int (v : value) : Z :=
  match v with
  | VBool b => if b then 1 else 0
  | VInt z => z
  | VFloat q => py_int q
  end.

Definition to_float (v : value) : Q :=
  match v with
  | VBool b => if b then 1%Q else 0%Q
  | VInt z => inject_Z z
  | VFloat q => q
  end.

(** ** The host *)

(** What the plugin calls outside itself.
    - [time_time]: one call of [time.time()]; the host state it returns lets a
      clock advance between two readings.
    - [brushSize]: [_get_current_brush_size], [None] when there is no
      application, window or view, or when the call raises.
    - [action_trigger]: [app.action(name).trigger()], the identity when the
      application or the action is missing.
    - [krita_instance]: whether [Krita.instance()] is there.
    - [writeSetting]: [app.writeSetting(group, key, str(value))]; the value is
      passed unserialised.
    - [math_exp]: [math.exp]. *)
Class Env (W : Type) := {
  time_time : W -> Q * W;
  brushSize : W -> option Q;
  action_trigger : string -> W -> W;
  krita_instance : W -> bool;
  writeSetting : string -> string -> value -> W -> W;
  math_exp : Q -> Q
}.

(** ** Handler data *)

Inductive InputMode := HOLD | SLOW_TAP.

Definition InputMode_eqb (a b : InputMode) : bool :=
  match a, b with
  | HOLD, HOLD | SLOW_TAP, SLOW_TAP => true
  | _, _ => false
  end.

Record QTimer := {
  isActive : bool;
  interval : Z;
  isSingleShot : bool
}.

(** [QTimer.start(msec)] and [QTimer.stop()]. *)
Definition QTimer_start (msec : Z) (t : QTimer) : QTimer :=
  {| isActive := true; interval := msec; isSingleShot := isSingleShot t |}.

Definition QTimer_stop (t : QTimer) : QTimer :=
  {| isActive := false; interval := interval t; isSingleShot := isSingleShot t |}.

(** The attributes of a handler that the settings store writes
    ("Configurable Settings (set by SettingsManager)"). *)
Record Config := {
  HOLD_DETECT_TIME : Q;
  SLOW_TAP_THRESHOLD : Q;
  MULTIPLIER_THRESHOLD : Q;
  HOLD_ENABLED : bool;
  SLOW_TAP_ENABLED : bool;
  MULTIPLIER_ENABLED : bool;
  HOLD_BASE_INTERVAL : Q;
  HOLD_MIN_INTERVAL : Q;
  HOLD_EXP_K : Q;
  HOLD_TAU : Q;
  SLOW_BURST_COUNT : Z;
  SLOW_BURST_INTERVAL : Q;
  MULTIPLIER_BURST_COUNT : Z;
  MULTIPLIER_BURST_INTERVAL : Q
}.

Record Handler := {
  action_name : string;
  config : Config;
  is_pressed : bool;
  press_start_time : Q;
  last_trigger_time : Q;
  last_release_time : Q;
  trigger_count : Z;
  current_mode : InputMode;
  burst_remaining : Z;
  burst_active : bool;
  burst_timer : QTimer;
  _current_burst_interval : Q;
  timer : QTimer;
  timer_interval : Z;
  last_brush_size : option Q;
  unchanged_trigger_count : Z;
  last_timer_activity : Q;
  paired_handler : option nat
}.

(** Safety limits (class constants). *)
Definition MAX_PRESS_DURATION : Q := 10%Q.
Definition STALE_STATE_TIMEOUT : Q := (1 # 2)%Q.
Definition MAX_UNCHANGED_TRIGGERS : Z := 15.

(** The values [__init__] gives the configurable attributes. *)
Definition init_config : Config :=
  {| HOLD_DETECT_TIME := (35 # 1000)%Q;
     SLOW_TAP_THRESHOLD := (30 # 100)%Q;
     MULTIPLIER_THRESHOLD := (15 # 100)%Q;
     HOLD_ENABLED := true;
     SLOW_TAP_ENABLED := true;
     MULTIPLIER_ENABLED := true;
     HOLD_BASE_INTERVAL := (10 # 100)%Q;
     HOLD_MIN_INTERVAL := (8 # 1000)%Q;
     HOLD_EXP_K := 8%Q;
     HOLD_TAU := (15 # 100)%Q;
     SLOW_BURST_COUNT := 3;
     SLOW_BURST_INTERVAL := (15 # 1000)%Q;
     MULTIPLIER_BURST_COUNT := 2;
     MULTIPLIER_BURST_INTERVAL := (10 # 1000)%Q |}.

(** [AcceleratingKeyHandler.__init__]. *)
Definition new_handler (name : string) : Handler :=
  {| action_name := name;
     config := init_config;
     is_pressed := false;
     press_start_time := 0%Q;
     last_trigger_time := 0%Q;
     last_release_time := 0%Q;
     trigger_count := 0;
     current_mode := SLOW_TAP;
     burst_remaining := 0;
     burst_active := false;
     burst_timer := {| isActive := false; interval := 0; isSingleShot := true |};
     _current_burst_interval := (15 # 1000)%Q;
     timer := {| isActive := false; interval := 0; isSingleShot := false |};
     timer_interval := 5;
     last_brush_size := None;
     unchanged_trigger_count := 0;
     last_timer_activity := 0%Q;
     paired_handler := None |}.

(** Attribute assignment, one function per attribute the methods write. *)
Definition set_config (v : Config) (h : Handler) : Handler :=
  Build_Handler (action_name h) v (is_pressed h) (press_start_time h)
    (last_trigger_time h) (last_release_time h) (trigger_count h) (current_mode h)
    (burst_remaining h) (burst_active h) (burst_timer h) (_current_burst_interval h)
    (timer h) (timer_interval h) (last_brush_size h) (unchanged_trigger_count h)
    (last_timer_activity h) (paired_handler h).

Definition set_is_pressed (v : bool) (h : Handler) : Handler :=
  Build_Handler (action_name h) (config h) v (press_start_time h)
    (last_trigger_time h) (last_release_time h) (trigger_count h) (current_mode h)
    (burst_remaining h) (burst_active h) (burst_timer h) (_current_burst_interval h)
    (timer h) (timer_interval h) (last_brush_size h) (unchanged_trigger_count h)
    (last_timer_activity h) (paired_handler h).

Definition set_press_start_time (v : Q) (h : Handler) : Handler :=
  Build_Handler (action_name h) (config h) (is_pressed h) v (last_trigger_time h)
    (last_release_time h) (trigger_count h) (current_mode h) (burst_remaining h)
    (burst_active h) (burst_timer h) (_current_burst_interval h) (timer h)
    (timer_interval h) (last_brush_size h) (unchanged_trigger_count h)
    (last_timer_activity h) (paired_handler h).

Definition set_last_trigger_time (v : Q) (h : Handler) : Handler :=
  Build_Handler (action_name h) (config h) (is_pressed h) (press_start_time h) v
    (last_release_time h) (trigger_count h) (current_mode h) (burst_remaining h)
    (burst_active h) (burst_timer h) (_current_burst_interval h) (timer h)
    (timer_interval h) (last_brush_size h) (unchanged_trigger_count h)
    (last_timer_activity h) (paired_handler h).

Definition set_last_release_time (v : Q) (h : Handler) : Handler :=
  Build_Handler (action_name h) (config h) (is_pressed h) (press_start_time h)
    (last_trigger_time h) v (trigger_count h) (current_mode h) (burst_remaining h)
    (burst_active h) (burst_timer h) (_current_burst_interval h) (timer h)
    (timer_interval h) (last_brush_size h) (unchanged_trigger_count h)
    (last_timer_activity h) (paired_handler h).

Definition set_trigger_count (v : Z) (h : Handler) : Handler :=
  Build_Handler (action_name h) (config h) (is_pressed h) (press_start_time h)
    (last_trigger_time h) (last_release_time h) v (current_mode h)
    (burst_remaining h) (burst_active h) (burst_timer h) (_current_burst_interval h)
    (timer h) (timer_interval h) (last_brush_size h) (unchanged_trigger_count h)
    (last_timer_activity h) (paired_handler h).

Definition set_current_mode (v : InputMode) (h : Handler) : Handler :=
  Build_Handler (action_name h) (config h) (is_pressed h) (press_start_time h)
    (last_trigger_time h) (last_release_time h) (trigger_count h) v
    (burst_remaining h) (burst_active h) (burst_timer h) (_current_burst_interval h)
    (timer h) (timer_interval h) (last_brush_size h) (unchanged_trigger_count h)
    (last_timer_activity h) (paired_handler h).

Definition set_burst_remaining (v : Z) (h : Handler) : Handler :=
  Build_Handler (action_name h) (config h) (is_pressed h) (press_start_time h)
    (last_trigger_time h) (last_release_time h) (trigger_count h) (current_mode h) v
    (burst_active h) (burst_timer h) (_current_burst_interval h) (timer h)
    (timer_interval h) (last_brush_size h) (unchanged_trigger_count h)
    (last_timer_activity h) (paired_handler h).

Definition set_burst_active (v : bool) (h : Handler) : Handler :=
  Build_Handler (action_name h) (config h) (is_pressed h) (press_start_time h)
    (last_trigger_time h) (last_release_time h) (trigger_count h) (current_mode h)
    (burst_remaining h) v (burst_timer h) (_current_burst_interval h) (timer h)
    (timer_interval h) (last_brush_size h) (unchanged_trigger_count h)
    (last_timer_activity h) (paired_handler h).

Definition set_burst_timer (v : QTimer) (h : Handler) : Handler :=
  Build_Handler (action_name h) (config h) (is_pressed h) (press_start_time h)
    (last_trigger_time h) (last_release_time h) (trigger_count h) (current_mode h)
    (burst_remaining h) (burst_active h) v (_current_burst_interval h) (timer h)
    (timer_interval h) (last_brush_size h) (unchanged_trigger_count h)
    (last_timer_activity h) (paired_handler h).

Definition set_current_burst_interval (v : Q) (h : Handler) : Handler :=
  Build_Handler (action_name h) (config h) (is_pressed h) (press_start_time h)
    (last_trigger_time h) (last_release_time h) (trigger_count h) (current_mode h)
    (burst_remaining h) (burst_active h) (burst_timer h) v (timer h)
    (timer_interval h) (last_brush_size h) (unchanged_trigger_count h)
    (last_timer_activity h) (paired_handler h).

Definition set_timer (v : QTimer) (h : Handler) : Handler :=
  Build_Handler (action_name h) (config h) (is_pressed h) (press_start_time h)
    (last_trigger_time h) (last_release_time h) (trigger_count h) (current_mode h)
    (burst_remaining h) (burst_active h) (burst_timer h) (_current_burst_interval h)
    v (timer_interval h) (last_brush_size h) (unchanged_trigger_count h)
    (last_timer_activity h) (paired_handler h).

Definition set_last_brush_size (v : option Q) (h : Handler) : Handler :=
  Build_Handler (action_name h) (config h) (is_pressed h) (press_start_time h)
    (last_trigger_time h) (last_release_time h) (trigger_count h) (current_mode h)
    (burst_remaining h) (burst_active h) (burst_timer h) (_current_burst_interval h)
    (timer h) (timer_interval h) v (unchanged_trigger_count h)
    (last_timer_activity h) (paired_handler h).

Definition set_unchanged_trigger_count (v : Z) (h : Handler) : Handler :=
  Build_Handler (action_name h) (config h) (is_pressed h) (press_start_time h)
    (last_trigger_time h) (last_release_time h) (trigger_count h) (current_mode h)
    (burst_remaining h) (burst_active h) (burst_timer h) (_current_burst_interval h)
    (timer h) (timer_interval h) (last_brush_size h) v (last_timer_activity h)
    (paired_handler h).

Definition set_last_timer_activity (v : Q) (h : Handler) : Handler :=
  Build_Handler (action_name h) (config h) (is_pressed h) (press_start_time h)
    (last_trigger_time h) (last_release_time h) (trigger_count h) (current_mode h)
    (burst_remaining h) (burst_active h) (burst_timer h) (_current_burst_interval h)
    (timer h) (timer_interval h) (last_brush_size h) (unchanged_trigger_count h) v
    (paired_handler h).

Definition set_paired_handler (v : option nat) (h : Handler) : Handler :=
  Build_Handler (action_name h) (config h) (is_pressed h) (press_start_time h)
    (last_trigger_time h) (last_release_time h) (trigger_count h) (current_mode h)
    (burst_remaining h) (burst_active h) (burst_timer h) (_current_burst_interval h)
    (timer h) (timer_interval h) (last_brush_size h) (unchanged_trigger_count h)
    (last_timer_activity h) v.

(** How a slot ends: it returns, or an exception leaves it; either way the
    state reached so far stays. *)
Inductive outcome (A : Type) :=
  | Returned (a : A)
  | Raised (a : A).
Arguments Returned {A} a.
Arguments Raised {A} a.

Definition state_of {A} (o : outcome A) : A :=
  match o with Returned a | Raised a => a end.

(** ** Handler methods *)

Section Methods.

Context {W : Type} `{Env W}.

(** [_trigger_action]: count the trigger, fire the Krita action. *)
Definition _trigger_action (w : W) (h : Handler) : W * Handler :=
  let h := set_trigger_count (trigger_count h + 1) h in
  (action_trigger (action_name h) w, h).

(** [_cleanup_state]: stop both timers, drop the burst, clear the counter. *)
Definition _cleanup_state (h : Handler) : Handler :=
  let h := set_timer (QTimer_stop (timer h)) h in
  let h := set_burst_timer (QTimer_stop (burst_timer h)) h in
  let h := set_burst_remaining 0 h in
  let h := set_burst_active false h in
  set_unchanged_trigger_count 0 h.

(** [force_stop(reason)]; [last_release_time] is left alone on purpose. *)
Definition force_stop (reason : string) (h : Handler) : Handler :=
  let h := _cleanup_state h in
  set_is_pressed false h.

(** [end_press]. *)
Definition end_press (w : W) (h : Handler) : W * Handler :=
  if negb (is_pressed h) then (w, h)
  else
    let h := _cleanup_state h in
    let '(now, w) := time_time w in
    let h := set_last_release_time now h in
    (w, set_is_pressed false h).

(** [_finish_burst]. *)
Definition _finish_burst (w : W) (h : Handler) : W * Handler :=
  let h := set_burst_active false h in
  let h := set_burst_remaining 0 h in
  if is_pressed h && HOLD_ENABLED (config h) then
    let '(now, w) := time_time w in
    let h := set_press_start_time now h in
    let h := set_last_trigger_time (press_start_time h) h in
    (w, set_timer (QTimer_start (timer_interval h) (timer h)) h)
  else (w, h).

(** [_start_burst(burst_count, burst_interval)]. *)
Definition _start_burst (burst_count : Z) (burst_interval : Q)
    (w : W) (h : Handler) : W * Handler :=
  let h := set_burst_remaining burst_count h in
  let h := set_burst_active true h in
  let h := set_current_burst_interval burst_interval h in
  let '(w, h) := _trigger_action w h in
  let h := set_burst_remaining (burst_remaining h - 1) h in
  if 0 <? burst_remaining h then
    (w, set_burst_timer
          (QTimer_start (py_int (_current_burst_interval h * 1000)) (burst_timer h)) h)
  else _finish_burst w h.

(** [_on_burst_timer]: the slot of [burst_timer.timeout]. *)
Definition _on_burst_timer (w : W) (h : Handler) : W * Handler :=
  if (0 <? burst_remaining h) && is_pressed h then
    let '(w, h) := _trigger_action w h in
    let h := set_burst_remaining (burst_remaining h - 1) h in
    if 0 <? burst_remaining h then
      (w, set_burst_timer
            (QTimer_start (py_int (_current_burst_interval h * 1000)) (burst_timer h)) h)
    else _finish_burst w h
  else _finish_burst w h.

(** [_handle_slow_tap(use_multiplier)]. *)
Definition _handle_slow_tap (use_multiplier : bool) (w : W) (h : Handler)
    : W * Handler :=
  let h := set_current_mode SLOW_TAP h in
  let '(burst_count, burst_interval) :=
    if use_multiplier
    then (SLOW_BURST_COUNT (config h) * MULTIPLIER_BURST_COUNT (config h),
          MULTIPLIER_BURST_INTERVAL (config h))
    else (SLOW_BURST_COUNT (config h), SLOW_BURST_INTERVAL (config h)) in
  _start_burst burst_count burst_interval w h.

(** The body of [start_press] on the handler itself, from
    [self.is_pressed = True] to the end: what runs once the re-entrancy guard
    has passed and the paired handler has been dealt with (see
    [start_press] below, which works on the heap). *)
Definition start_press_self (w : W) (h : Handler) : W * Handler :=
  let h := set_is_pressed true h in
  let '(now, w) := time_time w in
  let h := set_press_start_time now h in
  let h := set_last_trigger_time (press_start_time h) h in
  let h := set_trigger_count 0 h in
  let h := set_last_brush_size (brushSize w) h in
  let h := set_unchanged_trigger_count 0 h in
  let h := set_last_timer_activity (press_start_time h) h in
  let time_since_release := (press_start_time h - last_release_time h)%Q in
  let '(w, h) :=
    if SLOW_TAP_ENABLED (config h)
       && (Qeq_bool (last_release_time h) 0
           || Qlt_bool time_since_release (SLOW_TAP_THRESHOLD (config h)))
    then
      let use_multiplier :=
        MULTIPLIER_ENABLED (config h)
        && Qgt_bool (last_release_time h) 0
        && Qlt_bool time_since_release (MULTIPLIER_THRESHOLD (config h)) in
      _handle_slow_tap use_multiplier w h
    else _handle_slow_tap false w h in
  if HOLD_ENABLED (config h) && negb (burst_active h) then
    (w, set_timer (QTimer_start (timer_interval h) (timer h)) h)
  else (w, h).

(** [_trigger_action_with_safety_check]. *)
Definition _trigger_action_with_safety_check (w : W) (h : Handler) : W * Handler :=
  let size_before := brushSize w in
  let '(w, h) := _trigger_action w h in
  let size_after := brushSize w in
  match size_before, size_after with
  | Some size_before, Some size_after =>
      if Qlt_bool (Qabs (size_before - size_after)) (1 # 1000) then
        let h := set_unchanged_trigger_count (unchanged_trigger_count h + 1) h in
        if MAX_UNCHANGED_TRIGGERS <=? unchanged_trigger_count h
        then (w, force_stop "brush size not changing" h)
        else (w, h)
      else
        let h := set_unchanged_trigger_count 0 h in
        (w, set_last_brush_size (Some size_after) h)
  | _, _ => (w, h)
  end.

(** [_get_current_interval(elapsed_time)]; [None] is the
    [ZeroDivisionError] of a float division by zero. *)
Definition _get_current_interval (h : Handler) (elapsed_time : Q) : option Q :=
  match current_mode h with
  | HOLD =>
      let t := (elapsed_time - HOLD_DETECT_TIME (config h))%Q in
      let t := Qmax 0 t in
      if Qeq_bool (HOLD_TAU (config h)) 0 then None
      else
        let decay := math_exp (- HOLD_EXP_K (config h) * t / HOLD_TAU (config h))%Q in
        let interval := (HOLD_BASE_INTERVAL (config h) * decay)%Q in
        Some (Qmax (HOLD_MIN_INTERVAL (config h)) interval)
  | SLOW_TAP =>
      let t := elapsed_time in
      let accel := (1 + (15 # 10) * t)%Q in
      if Qeq_bool accel 0 then None
      else
        let interval := ((15 # 100) / accel)%Q in
        Some (Qmax (3 # 100) interval)
  end.

(** [_on_timer]: the slot of [timer.timeout]. *)
Definition _on_timer (w : W) (h : Handler) : outcome (W * Handler) :=
  if negb (is_pressed h) then Returned (w, set_timer (QTimer_stop (timer h)) h)
  else
    let '(current_time, w) := time_time w in
    let elapsed_since_start := (current_time - press_start_time h)%Q in
    let elapsed_since_trigger := (current_time - last_trigger_time h)%Q in
    if Qgt_bool elapsed_since_start MAX_PRESS_DURATION then
      Returned (w, force_stop "max press duration exceeded" h)
    else
      let h := set_last_timer_activity current_time h in
      let h :=
        if HOLD_ENABLED (config h)
           && Qge_bool elapsed_since_start (HOLD_DETECT_TIME (config h))
           && negb (InputMode_eqb (current_mode h) HOLD)
           && negb (burst_active h)
        then set_current_mode HOLD h
        else h in
      if negb (InputMode_eqb (current_mode h) HOLD) then Returned (w, h)
      else
        match _get_current_interval h elapsed_since_start with
        | None => Raised (w, h)
        | Some interval =>
            if Qge_bool elapsed_since_trigger interval then
              let '(w, h) := _trigger_action_with_safety_check w h in
              Returned (w, set_last_trigger_time current_time h)
            else Returned (w, h)
        end.

(** [is_stale_state]. *)
Definition is_stale_state (w : W) (h : Handler) : bool * W :=
  if negb (is_pressed h) then (false, w)
  else
    let '(current_time, w) := time_time w in
    let time_since_activity := (current_time - last_timer_activity h)%Q in
    (Qgt_bool time_since_activity STALE_STATE_TIMEOUT, w).

(** [check_and_fix_stale_state]. *)
Definition check_and_fix_stale_state (w : W) (h : Handler) : bool * (W * Handler) :=
  let '(stale, w) := is_stale_state w h in
  if stale then (true, (w, force_stop "stale state detected" h))
  else (false, (w, h)).

(** *** Timers firing

    A timer fires only while it is active; a single-shot timer is stopped
    before its slot runs. *)
Definition timer_timeout (w : W) (h : Handler) : outcome (W * Handler) :=
  if isActive (timer h) then _on_timer w h else Returned (w, h).

Definition burst_timer_timeout (w : W) (h : Handler) : W * Handler :=
  if isActive (burst_timer h)
  then _on_burst_timer w (set_burst_timer (QTimer_stop (burst_timer h)) h)
  else (w, h).

(** *** Handlers in the heap *)

(** Run a method on the object at address [self]. Python references never
    dangle; an address that is not allocated leaves the state as it is. *)
Definition call (self : nat) (m : W -> Handler -> W * Handler)
    (k : W * gmap nat Handler) : W * gmap nat Handler :=
  match k.2 !! self with
  | Some h => let '(w, h) := m k.1 h in (w, <[self := h]> k.2)
  | None => k
  end.

(** [self.paired_handler and self.paired_handler.is_pressed]. *)
Definition paired_is_pressed (h : Handler) (heap : gmap nat Handler) : bool :=
  match paired_handler h with
  | Some p =>
      match heap !! p with
      | Some hp => is_pressed hp
      | None => false
      end
  | None => false
  end.

(** The mutual-exclusion step of [start_press]:
    [self.paired_handler.force_stop("paired handler starting")] when the
    paired handler is pressed. *)
Definition stop_paired (self : nat) (k : W * gmap nat Handler)
    : W * gmap nat Handler :=
  match k.2 !! self with
  | Some h =>
      if paired_is_pressed h k.2 then
        match paired_handler h with
        | Some p => call p (fun w hp => (w, force_stop "paired handler starting" hp)) k
        | None => k
        end
      else k
  | None => k
  end.

(** [start_press]. *)
Definition start_press (self : nat) (k : W * gmap nat Handler)
    : W * gmap nat Handler :=
  match k.2 !! self with
  | Some h =>
      if is_pressed h then k
      else call self start_press_self (stop_paired self k)
  | None => k
  end.

(** *** The event loop

    Everything that can reach a handler between two observations: the edge
    dispatcher's calls, the two timers, a configuration push from the
    settings store, and the host moving on (clock, brush) on its own. *)
Inductive event :=
  | StartPress (a : nat)
  | EndPress (a : nat)
  | ForceStop (a : nat) (reason : string)
  | TimerTimeout (a : nat)
  | BurstTimerTimeout (a : nat)
  | CheckStale (a : nat)
  | PushConfig (a : nat) (c : Config)
  | HostMoves (w : W).

Definition step (e : event) (k : W * gmap nat Handler) : W * gmap nat Handler :=
  match e with
  | StartPress a => start_press a k
  | EndPress a => call a end_press k
  | ForceStop a reason => call a (fun w h => (w, force_stop reason h)) k
  | TimerTimeout a => call a (fun w h => state_of (timer_timeout w h)) k
  | BurstTimerTimeout a => call a burst_timer_timeout k
  | CheckStale a => call a (fun w h => (check_and_fix_stale_state w h).2) k
  | PushConfig a c => call a (fun w h => (w, set_config c h)) k
  | HostMoves w => (w, k.2)
  end.

Definition run (evs : list event) (k : W * gmap nat Handler)
    : W * gmap nat Handler :=
  foldl (fun k e => step e k) k evs.

End Methods.

(** ** The settings store *)

Definition SETTINGS_GROUP : string := "QuickBrushSize".

Definition DEFAULTS : gmap string value :=
  list_to_map
    [ ("hold_detect_time", VFloat (200 # 1000));
      ("slow_tap_threshold", VFloat (100 # 1000));
      ("multiplier_threshold", VFloat (150 # 1000));
      ("hold_enabled", VBool true);
      ("slow_tap_enabled", VBool true);
      ("multiplier_enabled", VBool true);
      ("hold_base_interval", VFloat (10 # 100));
      ("hold_min_interval", VFloat (8 # 1000));
      ("hold_exp_k", VFloat 8);
      ("hold_tau", VFloat (15 # 100));
      ("slow_burst_count", VInt 3);
      ("slow_burst_interval", VFloat (15 # 1000));
      ("multiplier_burst_count", VInt 3);
      ("multiplier_burst_interval", VFloat (1 # 1000)) ].

Definition THRESHOLD_TOGGLE_MAP : gmap string string :=
  list_to_map
    [ ("hold_detect_time", "hold_enabled");
      ("slow_tap_threshold", "slow_tap_enabled");
      ("multiplier_threshold", "multiplier_enabled") ].

Record SettingsManager := {
  _current : gmap string value;
  _saved : gmap string value;
  _before_reset : option (gmap string value);
  _handlers : list nat
}.

(** [SettingsManager.__init__] up to its call of [_load_from_krita]; this is
    also the store the constructor leaves when Krita is not there. *)
Definition new_settings : SettingsManager :=
  {| _current := DEFAULTS; _saved := DEFAULTS; _before_reset := None; _handlers := [] |}.

Definition set__current (m : gmap string value) (s : SettingsManager) : SettingsManager :=
  {| _current := m; _saved := _saved s; _before_reset := _before_reset s;
     _handlers := _handlers s |}.

Definition set__saved (m : gmap string value) (s : SettingsManager) : SettingsManager :=
  {| _current := _current s; _saved := m; _before_reset := _before_reset s;
     _handlers := _handlers s |}.

Definition set__before_reset (m : option (gmap string value)) (s : SettingsManager)
    : SettingsManager :=
  {| _current := _current s; _saved := _saved s; _before_reset := m;
     _handlers := _handlers s |}.

Definition set__handlers (l : list nat) (s : SettingsManager) : SettingsManager :=
  {| _current := _current s; _saved := _saved s; _before_reset := _before_reset s;
     _handlers := l |}.

(** The configuration [_apply_to_handler] reads out of a dictionary;
    [None] is the [KeyError] of a missing key. The count attributes go through
    [int(...)] as in the source; a threshold, interval or flag is whatever
    value the dictionary holds, read here at the type the handler uses it at. *)
Definition config_of (d : gmap string value) : option Config :=
  hold_detect_time ← d !! "hold_detect_time";
  slow_tap_threshold ← d !! "slow_tap_threshold";
  multiplier_threshold ← d !! "multiplier_threshold";
  hold_enabled ← d !! "hold_enabled";
  slow_tap_enabled ← d !! "slow_tap_enabled";
  multiplier_enabled ← d !! "multiplier_enabled";
  hold_base_interval ← d !! "hold_base_interval";
  hold_min_interval ← d !! "hold_min_interval";
  hold_exp_k ← d !! "hold_exp_k";
  hold_tau ← d !! "hold_tau";
  slow_burst_count ← d !! "slow_burst_count";
  slow_burst_interval ← d !! "slow_burst_interval";
  multiplier_burst_count ← d !! "multiplier_burst_count";
  multiplier_burst_interval ← d !! "multiplier_burst_interval";
  Some {| HOLD_DETECT_TIME := to_float hold_detect_time;
          SLOW_TAP_THRESHOLD := to_float slow_tap_threshold;
          MULTIPLIER_THRESHOLD := to_float multiplier_threshold;
          HOLD_ENABLED := to_bool hold_enabled;
          SLOW_TAP_ENABLED := to_bool slow_tap_enabled;
          MULTIPLIER_ENABLED := to_bool multiplier_enabled;
          HOLD_BASE_INTERVAL := to_float hold_base_interval;
          HOLD_MIN_INTERVAL := to_float hold_min_interval;
          HOLD_EXP_K := to_float hold_exp_k;
          HOLD_TAU := to_float hold_tau;
          SLOW_BURST_COUNT := to_int slow_burst_count;
          SLOW_BURST_INTERVAL := to_float slow_burst_interval;
          MULTIPLIER_BURST_COUNT := to_int multiplier_burst_count;
          MULTIPLIER_BURST_INTERVAL := to_float multiplier_burst_interval |}.

(** [_apply_to_handler(handler)]. *)
Definition _apply_to_handler (s : SettingsManager) (h : Handler) : option Handler :=
  c ← config_of (_current s);
  Some (set_config c h).

(** [_update_handlers]: the loop over [self._handlers], on the heap. *)
Fixpoint update_each (s : SettingsManager) (l : list nat) (heap : gmap nat Handler)
    : option (gmap nat Handler) :=
  match l with
  | [] => Some heap
  | a :: l =>
      match heap !! a with
      | Some h =>
          h ← _apply_to_handler s h;
          update_each s l (<[a := h]> heap)
      | None => update_each s l heap
      end
  end.

Definition _update_handlers (s : SettingsManager) (heap : gmap nat Handler)
    : option (gmap nat Handler) :=
  update_each s (_handlers s) heap.

(** [get(key)]; [None] is Python's [None]. *)
Definition get (key : string) (s : SettingsManager) : option value :=
  match _current s !! key with
  | Some v => Some v
  | None => DEFAULTS !! key
  end.

(** [set(key, value)]. *)
Definition set (key : string) (v : value) (s : SettingsManager)
    (heap : gmap nat Handler) : option (SettingsManager * gmap nat Handler) :=
  match _current s !! key with
  | Some _ =>
      let v :=
        match DEFAULTS !! key with
        | Some (VBool _) => VBool (to_bool v)
        | Some (VInt _) => VInt (to_int v)
        | _ => VFloat (to_float v)
        end in
      let s := set__current (<[key := v]> (_current s)) s in
      heap ← _update_handlers s heap;
      Some (s, heap)
  | None => Some (s, heap)
  end.

(** [is_threshold_enabled(threshold_key)]. *)
Definition is_threshold_enabled (threshold_key : string) (s : SettingsManager) : value :=
  match THRESHOLD_TOGGLE_MAP !! threshold_key with
  | Some enabled_key => default (VBool true) (_current s !! enabled_key)
  | None => VBool true
  end.

(** [set_threshold_enabled(threshold_key, enabled)]. *)
Definition set_threshold_enabled (threshold_key : string) (enabled : value)
    (s : SettingsManager) (heap : gmap nat Handler)
    : option (SettingsManager * gmap nat Handler) :=
  match THRESHOLD_TOGGLE_MAP !! threshold_key with
  | Some enabled_key =>
      let s := set__current (<[enabled_key := VBool (to_bool enabled)]> (_current s)) s in
      heap ← _update_handlers s heap;
      Some (s, heap)
  | None => Some (s, heap)
  end.

(** [get_enabled_threshold_count]. *)
Definition get_enabled_threshold_count (s : SettingsManager) : Z :=
  foldl
    (fun count enabled_key =>
       if to_bool (default (VBool true) (_current s !! enabled_key))
       then count + 1 else count)
    0 (map_to_list THRESHOLD_TOGGLE_MAP).*2.

Section Persistence.

Context {W : Type} `{Env W}.

(** [_save_to_krita]; the writes go key by key, each key once, in the order
    of the keys rather than in the order of insertion of a Python
    dictionary. *)
Definition _save_to_krita (w : W) (s : SettingsManager) : bool * W :=
  if negb (krita_instance w) then (false, w)
  else
    (true,
     foldl (fun w kv => writeSetting SETTINGS_GROUP kv.1 kv.2 w) w
           (map_to_list (_current s))).

(** [save]. *)
Definition save (w : W) (s : SettingsManager) : bool * (W * SettingsManager) :=
  let '(ok, w) := _save_to_krita w s in
  if ok then
    let s := set__saved (_current s) s in
    let s := set__before_reset None s in
    (true, (w, s))
  else (false, (w, s)).

End Persistence.

(** [cancel]. *)
Definition cancel (s : SettingsManager) (heap : gmap nat Handler)
    : option (SettingsManager * gmap nat Handler) :=
  let s :=
    match _before_reset s with
    | Some before =>
        let s := set__current before s in
        set__before_reset None s
    | None => set__current (_saved s) s
    end in
  heap ← _update_handlers s heap;
  Some (s, heap).

(** [reset_to_defaults]. *)
Definition reset_to_defaults (s : SettingsManager) (heap : gmap nat Handler)
    : option (SettingsManager * gmap nat Handler) :=
  let s := set__before_reset (Some (_current s)) s in
  let s := set__current DEFAULTS s in
  heap ← _update_handlers s heap;
  Some (s, heap).

(** [register_handler(handler)] and [unregister_handler(handler)]. *)
Definition register_handler (a : nat) (s : SettingsManager) (heap : gmap nat Handler)
    : option (SettingsManager * gmap nat Handler) :=
  if bool_decide (a ∈ _handlers s) then Some (s, heap)
  else
    let s := set__handlers (_handlers s ++ [a]) s in
    match heap !! a with
    | Some h => h ← _apply_to_handler s h; Some (s, <[a := h]> heap)
    | None => Some (s, heap)
    end.

Fixpoint list_remove_first (a : nat) (l : list nat) : list nat :=
  match l with
  | [] => []
  | b :: l => if bool_decide (a = b) then l else b :: list_remove_first a l
  end.

Definition unregister_handler (a : nat) (s : SettingsManager) : SettingsManager :=
  if bool_decide (a ∈ _handlers s)
  then set__handlers (list_remove_first a (_handlers s)) s
  else s.

(** ** The threshold check box of the docker *)

(** What [_on_checkbox_changed] reads and writes of a [ThresholdSettingRow]:
    its key, the check box, whether slider, spin box and label are enabled,
    and the [_updating] flag. *)
Record ThresholdSettingRow := {
  key : string;
  checkbox_isChecked : bool;
  controls_enabled : bool;
  _updating : bool
}.

Definition Qt_Checked : Z := 2.

(** [_on_checkbox_changed(state)], the slot of [checkbox.stateChanged]: the
    check box already shows [state] when it runs. [setChecked(True)] in the
    revert branch runs under [_updating], so the slot it re-enters returns at
    once. *)
Definition _on_checkbox_changed (state : Z) (row : ThresholdSettingRow)
    (s : SettingsManager) (heap : gmap nat Handler)
    : option (ThresholdSettingRow * SettingsManager * gmap nat Handler) :=
  if _updating row then Some (row, s, heap)
  else
    let is_checked := state =? Qt_Checked in
    if negb is_checked && (get_enabled_threshold_count s <=? 1) then
      Some ({| key := key row; checkbox_isChecked := true;
               controls_enabled := controls_enabled row;
               _updating := false |}, s, heap)
    else
      let row := {| key := key row; checkbox_isChecked := checkbox_isChecked row;
                    controls_enabled := is_checked; _updating := _updating row |} in
      r ← set_threshold_enabled (key row) (VBool is_checked) s heap;
      Some (row, r.1, r.2).

(** ** A host to run the code on

    A Krita with one view whose brush size the two actions move by one pixel
    between 1 and 1000, a clock that stands still during a slot and is moved
    by hand between slots, and a settings storage that records what is
    written. [math_exp] is a rational stand-in for [math.exp]; no theorem
    below depends on which function it is. *)
Record SimHost := {
  sim_time : Q;
  sim_brush : option Q;
  sim_krita : bool;
  sim_written : list (string * string * value)
}.

Definition sim_trigger (name : string) (w : SimHost) : SimHost :=
  let move (b : Q) : Q :=
    if String.eqb name "decrease_brush_size" then Qmax 1 (b - 1)%Q
    else if String.eqb name "increase_brush_size" then Qmin 1000 (b + 1)%Q
    else b in
  {| sim_time := sim_time w;
     sim_brush := Qred <$> (move <$> sim_brush w);
     sim_krita := sim_krita w;
     sim_written := sim_written w |}.

Definition sim_write (group k : string) (v : value) (w : SimHost) : SimHost :=
  {| sim_time := sim_time w;
     sim_brush := sim_brush w;
     sim_krita := sim_krita w;
     sim_written := sim_written w ++ [(group, k, v)] |}.

Definition at_time (t : Q) (w : SimHost) : SimHost :=
  {| sim_time := t;
     sim_brush := sim_brush w;
     sim_krita := sim_krita w;
     sim_written := sim_written w |}.

#[export] Instance SimHost_Env : Env SimHost := {|
  time_time w := (sim_time w, w);
  brushSize := sim_brush;
  action_trigger := sim_trigger;
  krita_instance := sim_krita;
  writeSetting := sim_write;
  math_exp x := if Qle_bool x 0 then (1 / (1 - x))%Q else (1 + x)%Q
|}.

Definition sim_host (t : Q) (brush : option Q) : SimHost :=
  {| sim_time := t; sim_brush := brush; sim_krita := true; sim_written := [] |}.

(** * Vocabulary of the properties *)

Section Vocabulary.

Context {W : Type} `{Env W}.

(** The burst timer firing once for each host state of [ws], in order; the
    host is free to move between two firings. *)
Fixpoint burst_timer_fires (ws : list W) (h : Handler) : Handler :=
  match ws with
  | [] => h
  | w :: ws => burst_timer_fires ws (burst_timer_timeout w h).2
  end.

(** [start_press_self] around the burst it starts: [armed] is the handler
    as [_start_burst] finds it, marked pressed with its clocks and counters
    reset and its mode set by [_handle_slow_tap]; [watch_for_hold] is the
    last statement, which starts the poll timer when hold mode is enabled
    and no burst is active. *)
Definition armed (w : W) (h : Handler) : Handler :=
  set_current_mode SLOW_TAP
    (set_last_timer_activity (time_time w).1
       (set_unchanged_trigger_count 0
          (set_last_brush_size (brushSize (time_time w).2)
             (set_trigger_count 0
                (set_last_trigger_time (time_time w).1
                   (set_press_start_time (time_time w).1
                      (set_is_pressed true h))))))).

Definition watch_for_hold (k : W * Handler) : W * Handler :=
  if HOLD_ENABLED (config k.2) && negb (burst_active k.2)
  then (k.1, set_timer (QTimer_start (timer_interval k.2) (timer k.2)) k.2)
  else k.

(** [h] has just started a burst of [count] steps spaced [spacing] seconds:
    the first step is fired and the spacing is recorded; while steps are
    left, the single-shot timer is armed with the spacing in milliseconds and
    each of its firings, with the key still down, fires one more trigger;
    once it has fired for each of the steps that were left, [count] triggers
    have been fired in all and the burst is over, however often the timer is
    fired after that. *)
Definition burst_of (count : Z) (spacing : Q) (h : Handler) : Prop :=
  is_pressed h = true
  /\ trigger_count h = 1
  /\ _current_burst_interval h = spacing
  /\ (1 < count ->
      burst_active h = true
      /\ burst_remaining h = count - 1)
  /\ (forall ws : list W,
        Z.of_nat (length ws) < count - 1 ->
        trigger_count (burst_timer_fires ws h) = 1 + Z.of_nat (length ws)
        /\ isActive (burst_timer (burst_timer_fires ws h)) = true
        /\ interval (burst_timer (burst_timer_fires ws h)) = py_int (spacing * 1000))
  /\ (1 <= count ->
      forall ws : list W,
        count - 1 <= Z.of_nat (length ws) ->
        trigger_count (burst_timer_fires ws h) = count
        /\ burst_active (burst_timer_fires ws h) = false).

(** The clock reading [_finish_burst] makes on the host when hold mode takes
    over from a burst that has run out with the key still down. *)
Definition hold_takes_over (hold : bool) (w : W) : W :=
  if hold then (time_time w).2 else w.

(** What a burst of [count] steps does to the host. [w] is the host when the
    burst starts, [k] are host and handler when [start_press] returns, [name]
    is the action of the handler and [hold] whether hold mode is enabled. The
    first step has triggered the action on [w]. After that the host is free
    to move; whatever the hosts [ws] of the earlier firings of the burst
    timer were, its next firing at a host [w'] triggers the action once on
    [w'] while steps are left, and leaves [w'] as it is once the burst is
    over. The step that ends the burst is followed by the clock reading of
    the takeover by hold mode. A burst timer found pending by a press whose
    burst has a single step would fire once more, without a step to run; its
    first firing is left out here. *)
Definition burst_on_host (name : string) (hold : bool) (count : Z) (w : W)
    (k : W * Handler) : Prop :=
  k.1 = (if 1 <? count then action_trigger name w
         else hold_takes_over hold (action_trigger name w))
  /\ (forall (ws : list W) (w' : W),
        Z.of_nat (length ws) < count - 2 ->
        (burst_timer_timeout w' (burst_timer_fires ws k.2)).1
        = action_trigger name w')
  /\ (forall (ws : list W) (w' : W),
        Z.of_nat (length ws) = count - 2 ->
        (burst_timer_timeout w' (burst_timer_fires ws k.2)).1
        = hold_takes_over hold (action_trigger name w'))
  /\ (forall (ws : list W) (w' : W),
        count - 2 < Z.of_nat (length ws) ->
        (ws = [] -> isActive (burst_timer k.2) = true -> 1 < count) ->
        (burst_timer_timeout w' (burst_timer_fires ws k.2)).1 = w').

(** The burst timer firing [n] times in a row on the host the firing before
    has left. *)
Fixpoint burst_timer_runs (n : nat) (k : W * Handler) : W * Handler :=
  match n with
  | O => k
  | S n => burst_timer_runs n (burst_timer_timeout k.1 k.2)
  end.

(** [is_pressed] of the handler at [a]. *)
Definition pressed (σ : gmap nat Handler) (a : nat) : bool :=
  match σ !! a with
  | Some h => is_pressed h
  | None => false
  end.

(** [a] and [b] are each other's [paired_handler]. *)
Definition wired (σ : gmap nat Handler) (a b : nat) : Prop :=
  exists ha hb,
    σ !! a = Some ha /\ σ !! b = Some hb
    /\ paired_handler ha = Some b /\ paired_handler hb = Some a.

(** [a] and [b] are not both pressed. *)
Definition exclusive (σ : gmap nat Handler) (a b : nat) : Prop :=
  ~ (pressed σ a = true /\ pressed σ b = true).

(** A method that keeps [paired_handler] and never marks a handler pressed
    that was not. *)
Definition quiet (m : W -> Handler -> W * Handler) : Prop :=
  forall w h,
    paired_handler (m w h).2 = paired_handler h
    /\ (is_pressed (m w h).2 = true -> is_pressed h = true).




End Vocabulary.

(** The dictionary has every key of [DEFAULTS]. *)
Definition complete (d : gmap string value) : Prop :=
  forall k, is_Some (DEFAULTS !! k) -> is_Some (d !! k).

(** The three dictionaries of the store are complete; the constructor makes
    it so and every method keeps it so ([store_ok_new], [store_ok_kept]). *)
Definition store_ok (s : SettingsManager) : Prop :=
  complete (_current s)
  /\ complete (_saved s)
  /\ forall before, _before_reset s = Some before -> complete before.

(** [heap'] is [heap] after the configuration of [d] has been pushed to the
    handlers of [l]. *)
Definition pushed (d : gmap string value) (l : list nat)
    (heap heap' : gmap nat Handler) : Prop :=
  exists c,
    config_of d = Some c
    /\ forall a,
         heap' !! a = if bool_decide (a ∈ l)
                      then set_config c <$> heap !! a
                      else heap !! a.

(** The configurable attributes of [h] hold the entries of the dictionary
    [d], attribute by attribute as [_apply_to_handler] lists them: every
    entry is there, a threshold or interval is its entry read as a float, a
    flag its entry read as a boolean, a burst count its entry through
    [int(...)]. *)
Definition configured (d : gmap string value) (h : Handler) : Prop :=
  to_float <$> d !! "hold_detect_time" = Some (HOLD_DETECT_TIME (config h))
  /\ to_float <$> d !! "slow_tap_threshold" = Some (SLOW_TAP_THRESHOLD (config h))
  /\ to_float <$> d !! "multiplier_threshold"
     = Some (MULTIPLIER_THRESHOLD (config h))
  /\ to_bool <$> d !! "hold_enabled" = Some (HOLD_ENABLED (config h))
  /\ to_bool <$> d !! "slow_tap_enabled" = Some (SLOW_TAP_ENABLED (config h))
  /\ to_bool <$> d !! "multiplier_enabled" = Some (MULTIPLIER_ENABLED (config h))
  /\ to_float <$> d !! "hold_base_interval" = Some (HOLD_BASE_INTERVAL (config h))
  /\ to_float <$> d !! "hold_min_interval" = Some (HOLD_MIN_INTERVAL (config h))
  /\ to_float <$> d !! "hold_exp_k" = Some (HOLD_EXP_K (config h))
  /\ to_float <$> d !! "hold_tau" = Some (HOLD_TAU (config h))
  /\ to_int <$> d !! "slow_burst_count" = Some (SLOW_BURST_COUNT (config h))
  /\ to_float <$> d !! "slow_burst_interval"
     = Some (SLOW_BURST_INTERVAL (config h))
  /\ to_int <$> d !! "multiplier_burst_count"
     = Some (MULTIPLIER_BURST_COUNT (config h))
  /\ to_float <$> d !! "multiplier_burst_interval"
     = Some (MULTIPLIER_BURST_INTERVAL (config h)).

(** The flag the store holds for an enabled key, as
    [get_enabled_threshold_count] reads it. *)
Definition flag (s : SettingsManager) (enabled_key : string) : bool :=
  to_bool (default (VBool true) (_current s !! enabled_key)).

(** The check box changing, for each row and state of [evs] in order; the
    rows are whatever the panel shows at that point. *)
Fixpoint checkbox_changes (evs : list (ThresholdSettingRow * Z))
    (s : SettingsManager) (heap : gmap nat Handler)
    : option (SettingsManager * gmap nat Handler) :=
  match evs with
  | [] => Some (s, heap)
  | (row, state) :: evs =>
      r ← _on_checkbox_changed state row s heap;
      checkbox_changes evs r.1.2 r.2
  end.

(** ** Concrete handlers and stores *)

(** Tap mode enabled, hold mode disabled, bursts of three steps 0.015 s
    apart. *)
Definition tap_config : Config :=
  {| HOLD_DETECT_TIME := (200 # 1000)%Q;
     SLOW_TAP_THRESHOLD := (100 # 1000)%Q;
     MULTIPLIER_THRESHOLD := (150 # 1000)%Q;
     HOLD_ENABLED := false;
     SLOW_TAP_ENABLED := true;
     MULTIPLIER_ENABLED := true;
     HOLD_BASE_INTERVAL := (10 # 100)%Q;
     HOLD_MIN_INTERVAL := (8 # 1000)%Q;
     HOLD_EXP_K := 8%Q;
     HOLD_TAU := (15 # 100)%Q;
     SLOW_BURST_COUNT := 3;
     SLOW_BURST_INTERVAL := (15 # 1000)%Q;
     MULTIPLIER_BURST_COUNT := 3;
     MULTIPLIER_BURST_INTERVAL := (1 # 1000)%Q |}.

Definition tap_handler : Handler :=
  set_config tap_config (new_handler "decrease_brush_size").


(** The two handlers [createActions] makes for a window, wired to each
    other. *)
Definition pair_heap : gmap nat Handler :=
  <[0%nat := set_paired_handler (Some 1%nat) (new_handler "decrease_brush_size")]>
    (<[1%nat := set_paired_handler (Some 0%nat) (new_handler "increase_brush_size")]> ∅).


(** An idle handler whose last release was at 99.95 s. *)
Definition tapped_handler : Handler :=
  set_last_release_time (9995 # 100) tap_handler.

(** A store with both handlers of a window registered and one value
    changed: the tap burst has five steps. *)
Definition edited_settings : SettingsManager :=
  {| _current := <["slow_burst_count" := VInt 5]> DEFAULTS;
     _saved := DEFAULTS;
     _before_reset := None;
     _handlers := [0%nat; 1%nat] |}.

(** * Properties *)

(** ** Comparisons *)

Lemma Qlt_bool_iff (a b : Q) : Qlt_bool a b = true <-> (a < b)%Q.
Proof.
  unfold Qlt_bool. rewrite negb_true_iff, <- not_true_iff_false, Qle_bool_iff.
  split; [apply Qnot_le_lt | apply Qlt_not_le].
Qed.

Lemma Qgt_bool_iff (a b : Q) : Qgt_bool a b = true <-> (b < a)%Q.
Proof. apply (Qlt_bool_iff b a). Qed.


Lemma Qlt_bool_false (a b : Q) : Qlt_bool a b = false <-> (b <= a)%Q.
Proof.
  unfold Qlt_bool. rewrite negb_false_iff. apply Qle_bool_iff.
Qed.


Lemma Qgt_bool_false (a b : Q) : Qgt_bool a b = false <-> (a <= b)%Q.
Proof. apply (Qlt_bool_false b a). Qed.

(** ** Stopping a handler *)

Section Stopping.

Context {W : Type} `{Env W}.

Lemma force_stop_fields reason h :
  is_pressed (force_stop reason h) = false
  /\ isActive (timer (force_stop reason h)) = false
  /\ isActive (burst_timer (force_stop reason h)) = false
  /\ burst_remaining (force_stop reason h) = 0
  /\ burst_active (force_stop reason h) = false
  /\ unchanged_trigger_count (force_stop reason h) = 0.
Proof. repeat split. Qed.

Lemma force_stop_frame reason h :
  last_release_time (force_stop reason h) = last_release_time h
  /\ config (force_stop reason h) = config h
  /\ trigger_count (force_stop reason h) = trigger_count h
  /\ paired_handler (force_stop reason h) = paired_handler h
  /\ action_name (force_stop reason h) = action_name h.
Proof. repeat split. Qed.

Lemma end_press_pressed w h :
  is_pressed h = true ->
  end_press w h =
    ((time_time w).2,
     set_last_release_time (time_time w).1 (force_stop "" h)).
Proof.
  intros Hp. unfold end_press. rewrite Hp. simpl.
  destruct (time_time w) as [now w']. reflexivity.
Qed.

Lemma end_press_idle w h : is_pressed h = false -> end_press w h = (w, h).
Proof. intros Hp. unfold end_press. now rewrite Hp. Qed.

End Stopping.

(** ** Bursts *)

Ltac break_match :=
  repeat match goal with
    | |- context [if ?b then _ else _] => destruct b eqn:?
    | |- context [match ?p with (_, _) => _ end] => destruct p eqn:?
    end.

Section Bursts.

Context {W : Type} `{Env W}.

(** What [_finish_burst] leaves alone. *)
Lemma _finish_burst_frame w h :
  let h' := (_finish_burst w h).2 in
  is_pressed h' = is_pressed h
  /\ trigger_count h' = trigger_count h
  /\ burst_active h' = false
  /\ burst_remaining h' = 0
  /\ burst_timer h' = burst_timer h
  /\ _current_burst_interval h' = _current_burst_interval h
  /\ unchanged_trigger_count h' = unchanged_trigger_count h
  /\ last_brush_size h' = last_brush_size h
  /\ last_release_time h' = last_release_time h
  /\ config h' = config h
  /\ paired_handler h' = paired_handler h
  /\ action_name h' = action_name h.
Proof.
  unfold _finish_burst. simpl. break_match; simpl; repeat split.
Qed.

(** A burst started with more than one step: one trigger now, the rest on
    the single-shot timer. *)
Lemma _start_burst_many n i w h :
  1 < n ->
  _start_burst n i w h =
    (action_trigger (action_name h) w,
     set_burst_timer (QTimer_start (py_int (i * 1000)) (burst_timer h))
       (set_burst_remaining (n - 1)
          (set_trigger_count (trigger_count h + 1)
             (set_current_burst_interval i
                (set_burst_active true (set_burst_remaining n h)))))).
Proof.
  intros Hn. unfold _start_burst, _trigger_action. simpl.
  destruct (0 <? n - 1) eqn:E; [reflexivity | apply Z.ltb_ge in E; lia].
Qed.

(** A burst started with at most one step fires once and is over. *)
Lemma _start_burst_single n i w h :
  n <= 1 ->
  _start_burst n i w h =
    _finish_burst (action_trigger (action_name h) w)
      (set_burst_remaining (n - 1)
         (set_trigger_count (trigger_count h + 1)
            (set_current_burst_interval i
               (set_burst_active true (set_burst_remaining n h))))).
Proof.
  intros Hn. unfold _start_burst, _trigger_action. simpl.
  destruct (0 <? n - 1) eqn:E; [apply Z.ltb_lt in E; lia | reflexivity].
Qed.

(** Either way exactly one trigger is fired by [_start_burst] itself, with
    no reading of the brush size and no change to the safety counter. *)
Lemma _start_burst_frame n i w h :
  let h' := (_start_burst n i w h).2 in
  trigger_count h' = trigger_count h + 1
  /\ _current_burst_interval h' = i
  /\ is_pressed h' = is_pressed h
  /\ unchanged_trigger_count h' = unchanged_trigger_count h
  /\ last_brush_size h' = last_brush_size h
  /\ last_release_time h' = last_release_time h
  /\ config h' = config h
  /\ paired_handler h' = paired_handler h
  /\ action_name h' = action_name h.
Proof.
  destruct (Z_lt_le_dec 1 n) as [Hn|Hn].
  - rewrite _start_burst_many by assumption. simpl. repeat split.
  - rewrite _start_burst_single by assumption.
    match goal with |- context [_finish_burst ?w' ?h'] =>
      pose proof (_finish_burst_frame w' h') as F end.
    simpl in F. simpl. intuition congruence.
Qed.

(** One firing of the burst timer in the middle of a burst. *)
Lemma burst_timer_timeout_step w h :
  is_pressed h = true ->
  isActive (burst_timer h) = true ->
  0 < burst_remaining h ->
  let h' := (burst_timer_timeout w h).2 in
  trigger_count h' = trigger_count h + 1
  /\ is_pressed h' = true
  /\ unchanged_trigger_count h' = unchanged_trigger_count h
  /\ (1 < burst_remaining h ->
      burst_remaining h' = burst_remaining h - 1
      /\ isActive (burst_timer h') = true
      /\ interval (burst_timer h') = py_int (_current_burst_interval h * 1000)
      /\ burst_active h' = burst_active h
      /\ _current_burst_interval h' = _current_burst_interval h)
  /\ (burst_remaining h = 1 ->
      burst_remaining h' = 0
      /\ isActive (burst_timer h') = false
      /\ burst_active h' = false).
Proof.
  intros Hp Ha Hr. unfold burst_timer_timeout. rewrite Ha.
  unfold _on_burst_timer, _trigger_action. simpl. rewrite Hp.
  destruct (0 <? burst_remaining h) eqn:E; [|apply Z.ltb_ge in E; lia].
  simpl.
  destruct (0 <? burst_remaining h - 1) eqn:E1.
  - apply Z.ltb_lt in E1. simpl. repeat split; try lia; auto.
  - apply Z.ltb_ge in E1.
    match goal with |- context [_finish_burst ?w' ?h'] =>
      pose proof (_finish_burst_frame w' h') as F end.
    simpl in F. simpl.
    destruct F as (F1 & F2 & F3 & F4 & F5 & F6 & F7 & _).
    rewrite F1, F2, F3, F4, F5, F7. simpl. repeat split; try lia; auto.
Qed.

(** In the middle of a burst every firing fires one trigger and arms the
    timer again with the spacing of the burst. *)
Lemma burst_midway ws : forall h,
  is_pressed h = true ->
  isActive (burst_timer h) = true ->
  interval (burst_timer h) = py_int (_current_burst_interval h * 1000) ->
  Z.of_nat (length ws) < burst_remaining h ->
  let h' := burst_timer_fires ws h in
  trigger_count h' = trigger_count h + Z.of_nat (length ws)
  /\ burst_remaining h' = burst_remaining h - Z.of_nat (length ws)
  /\ isActive (burst_timer h') = true
  /\ interval (burst_timer h') = py_int (_current_burst_interval h * 1000)
  /\ is_pressed h' = true.
Proof.
  induction ws as [|w ws IH]; intros h Hp Ha Hi Hlen.
  - cbn. repeat split; auto; lia.
  - cbn [length] in Hlen. cbn [burst_timer_fires].
    destruct (burst_timer_timeout_step w h Hp Ha) as (S1 & S2 & _ & Smany & _); [lia|].
    destruct Smany as (M1 & M2 & M3 & _ & M5); [lia|].
    specialize (IH (burst_timer_timeout w h).2 S2 M2).
    rewrite M5, M1, S1 in IH.
    destruct IH as (I1 & I2 & I3 & I4 & I5); [assumption | lia |].
    cbv zeta. rewrite I1, I2, I3, I4, I5. cbn [length]. repeat split; lia.
Qed.

(** A burst with [burst_remaining h] steps left runs to its end in that many
    firings, one trigger each, as long as the key stays down. *)
Lemma burst_completes ws : forall h,
  is_pressed h = true ->
  isActive (burst_timer h) = true ->
  0 < burst_remaining h ->
  Z.of_nat (length ws) = burst_remaining h ->
  let h' := burst_timer_fires ws h in
  trigger_count h' = trigger_count h + burst_remaining h
  /\ burst_remaining h' = 0
  /\ burst_active h' = false
  /\ isActive (burst_timer h') = false
  /\ is_pressed h' = true
  /\ unchanged_trigger_count h' = unchanged_trigger_count h.
Proof.
  induction ws as [|w ws IH]; intros h Hp Ha Hr Hlen; simpl in Hlen; [lia|].
  pose proof (burst_timer_timeout_step w h Hp Ha Hr) as S. simpl in S.
  destruct S as (S1 & S2 & S3 & Smany & Slast).
  cbn [burst_timer_fires].
  destruct (Z.eq_dec (burst_remaining h) 1) as [E1|E1].
  - destruct (Slast E1) as (L1 & L2 & L3).
    destruct ws as [|w' ws']; [|simpl in Hlen; lia].
    simpl. rewrite S1, E1. repeat split; auto.
  - assert (1 < burst_remaining h) as Hm by lia.
    destruct (Smany Hm) as (M1 & M2 & M3 & M4).
    specialize (IH (burst_timer_timeout w h).2 S2 M2).
    rewrite M1 in IH.
    destruct IH as (I1 & I2 & I3 & I4 & I5 & I6); [lia | lia |].
    rewrite I1, S1, I6, S3. repeat split; auto; lia.
Qed.

(** No burst timer pending: its firing is not an event. *)
Lemma burst_timer_timeout_inactive w h :
  isActive (burst_timer h) = false -> burst_timer_timeout w h = (w, h).
Proof. intros Ha. unfold burst_timer_timeout. now rewrite Ha. Qed.

Lemma burst_timer_fires_inactive ws : forall h,
  isActive (burst_timer h) = false -> burst_timer_fires ws h = h.
Proof.
  induction ws as [|w ws IH]; intros h Ha; [reflexivity|].
  simpl. rewrite burst_timer_timeout_inactive by assumption. simpl. now apply IH.
Qed.

(** A burst step that runs while the key is up fires nothing and ends the
    burst without rescheduling. *)
Lemma _on_burst_timer_released w h :
  is_pressed h = false ->
  _on_burst_timer w h = (w, set_burst_remaining 0 (set_burst_active false h)).
Proof.
  intros Hp. unfold _on_burst_timer. rewrite Hp, andb_false_r.
  unfold _finish_burst. simpl. now rewrite Hp.
Qed.

(** With no step left, a firing of the burst timer fires no trigger. *)
Lemma burst_timer_timeout_over w h :
  burst_remaining h = 0 ->
  burst_active h = false ->
  let h' := (burst_timer_timeout w h).2 in
  trigger_count h' = trigger_count h
  /\ burst_remaining h' = 0
  /\ burst_active h' = false
  /\ is_pressed h' = is_pressed h.
Proof.
  intros Hr Ha. unfold burst_timer_timeout.
  destruct (isActive (burst_timer h)); [|simpl; auto].
  unfold _on_burst_timer. cbn [burst_remaining set_burst_timer].
  rewrite Hr. cbn [Z.ltb Z.compare andb].
  match goal with |- context [_finish_burst ?w' ?h'] =>
    pose proof (_finish_burst_frame w' h') as F end.
  cbv zeta in F. destruct F as (F1 & F2 & F3 & F4 & _).
  cbv zeta. rewrite F1, F2, F3, F4. auto.
Qed.

Lemma burst_timer_fires_over ws : forall h,
  burst_remaining h = 0 ->
  burst_active h = false ->
  trigger_count (burst_timer_fires ws h) = trigger_count h
  /\ burst_active (burst_timer_fires ws h) = false
  /\ is_pressed (burst_timer_fires ws h) = is_pressed h.
Proof.
  induction ws as [|w ws IH]; intros h Hr Ha; [cbn; auto|].
  cbn [burst_timer_fires].
  destruct (burst_timer_timeout_over w h Hr Ha) as (T1 & T2 & T3 & T4).
  destruct (IH _ T2 T3) as (I1 & I2 & I3).
  rewrite I1, I2, I3, T1, T4. auto.
Qed.

Lemma burst_timer_fires_app ws1 ws2 h :
  burst_timer_fires (ws1 ++ ws2) h = burst_timer_fires ws2 (burst_timer_fires ws1 h).
Proof.
  revert h. induction ws1 as [|w ws1 IH]; intros h; [reflexivity|].
  cbn [app burst_timer_fires]. apply IH.
Qed.

(** However often the burst timer fires after that, the total stays. *)
Lemma burst_total ws h :
  is_pressed h = true ->
  isActive (burst_timer h) = true ->
  0 < burst_remaining h ->
  burst_remaining h <= Z.of_nat (length ws) ->
  trigger_count (burst_timer_fires ws h) = trigger_count h + burst_remaining h
  /\ burst_active (burst_timer_fires ws h) = false
  /\ is_pressed (burst_timer_fires ws h) = true.
Proof.
  intros Hp Ha Hr Hlen.
  rewrite <- (take_drop (Z.to_nat (burst_remaining h)) ws).
  rewrite burst_timer_fires_app.
  destruct (burst_completes (take (Z.to_nat (burst_remaining h)) ws) h Hp Ha Hr)
    as (B1 & B2 & B3 & B4 & B5 & B6).
  { rewrite length_take. lia. }
  destruct (burst_timer_fires_over (drop (Z.to_nat (burst_remaining h)) ws) _ B2 B3)
    as (O1 & O2 & O3).
  rewrite O1, O2, O3, B1, B5. auto.
Qed.

End Bursts.

(** ** Pressing a key *)

Section Pressing.

Context {W : Type} `{Env W}.

Lemma call_lookup a m (w : W) (σ : gmap nat Handler) h :
  σ !! a = Some h ->
  call a m (w, σ) = ((m w h).1, <[a := (m w h).2]> σ).
Proof.
  intros Ha. unfold call. simpl. rewrite Ha. now destruct (m w h).
Qed.

Lemma call_missing a m (w : W) (σ : gmap nat Handler) :
  σ !! a = None -> call a m (w, σ) = (w, σ).
Proof. intros Ha. unfold call. simpl. now rewrite Ha. Qed.

(** The paired handler is pressed: it is force-stopped, nothing else moves. *)
Lemma stop_paired_pressed a b (w : W) (σ : gmap nat Handler) h hb :
  σ !! a = Some h ->
  paired_handler h = Some b ->
  σ !! b = Some hb ->
  is_pressed hb = true ->
  stop_paired a (w, σ) = (w, <[b := force_stop "paired handler starting" hb]> σ).
Proof.
  intros Ha Hb Hhb Hp. unfold stop_paired, paired_is_pressed. simpl.
  rewrite Ha, Hb, Hhb, Hp. now rewrite (call_lookup b _ w σ hb).
Qed.

(** No paired handler, or one that is not pressed: nothing happens. *)
Lemma stop_paired_idle a (w : W) (σ : gmap nat Handler) h :
  σ !! a = Some h ->
  paired_is_pressed h σ = false ->
  stop_paired a (w, σ) = (w, σ).
Proof.
  intros Ha Hp. unfold stop_paired. simpl. now rewrite Ha, Hp.
Qed.

(** The mutual-exclusion step never touches the handler that starts: it is
    not pressed, so it is not the pressed paired handler. *)
Lemma stop_paired_self a (w : W) (σ : gmap nat Handler) h :
  σ !! a = Some h ->
  is_pressed h = false ->
  (stop_paired a (w, σ)).1 = w /\ (stop_paired a (w, σ)).2 !! a = Some h.
Proof.
  intros Ha Hp.
  destruct (paired_is_pressed h σ) eqn:E.
  - unfold paired_is_pressed in E.
    destruct (paired_handler h) as [b|] eqn:Hb; [|discriminate].
    destruct (σ !! b) as [hb|] eqn:Hhb; [|discriminate].
    rewrite (stop_paired_pressed a b w σ h hb) by assumption. simpl.
    split; [reflexivity|].
    rewrite lookup_insert_ne; [assumption|].
    intros ->. congruence.
  - rewrite (stop_paired_idle a w σ h) by assumption. auto.
Qed.

(** [start_press] on a handler that is not pressed: the paired handler is
    dealt with, then the handler runs the rest of the method on itself. *)
Lemma start_press_idle a (w : W) (σ : gmap nat Handler) h :
  σ !! a = Some h ->
  is_pressed h = false ->
  start_press a (w, σ) =
    ((start_press_self w h).1,
     <[a := (start_press_self w h).2]> (stop_paired a (w, σ)).2).
Proof.
  intros Ha Hp. unfold start_press. simpl. rewrite Ha, Hp.
  destruct (stop_paired_self a w σ h Ha Hp) as [E1 E2].
  destruct (stop_paired a (w, σ)) as [w1 σ1] eqn:E. simpl in E1, E2. subst w1.
  now rewrite (call_lookup a _ w σ1 h).
Qed.

Lemma start_press_idle_self a (w : W) (σ : gmap nat Handler) h :
  σ !! a = Some h ->
  is_pressed h = false ->
  (start_press a (w, σ)).2 !! a = Some (start_press_self w h).2.
Proof.
  intros Ha Hp. rewrite (start_press_idle a w σ h) by assumption.
  simpl. apply lookup_insert_eq.
Qed.

(** [start_press] on a pressed handler is ignored. *)
Lemma start_press_pressed a (w : W) (σ : gmap nat Handler) h :
  σ !! a = Some h ->
  is_pressed h = true ->
  start_press a (w, σ) = (w, σ).
Proof. intros Ha Hp. unfold start_press. simpl. now rewrite Ha, Hp. Qed.

(** The press is a tap in quick succession: multiplied burst. *)
Lemma start_press_self_multiplied w h :
  SLOW_TAP_ENABLED (config h) = true ->
  MULTIPLIER_ENABLED (config h) = true ->
  (0 < last_release_time h)%Q ->
  ((time_time w).1 - last_release_time h < SLOW_TAP_THRESHOLD (config h))%Q ->
  ((time_time w).1 - last_release_time h < MULTIPLIER_THRESHOLD (config h))%Q ->
  start_press_self w h =
    watch_for_hold
      (_start_burst
         (SLOW_BURST_COUNT (config h) * MULTIPLIER_BURST_COUNT (config h))
         (MULTIPLIER_BURST_INTERVAL (config h))
         (time_time w).2 (armed w h)).
Proof.
  intros Ht Hm Hr Htap Hmul.
  unfold start_press_self, armed, watch_for_hold, _handle_slow_tap.
  destruct (time_time w) as [now w1]. simpl in *.
  rewrite Ht, Hm.
  apply Qlt_bool_iff in Htap, Hmul. rewrite Htap, Hmul.
  apply Qgt_bool_iff in Hr. rewrite Hr.
  rewrite orb_true_r. simpl.
  match goal with |- context [_start_burst ?n ?i ?w' ?h'] =>
    destruct (_start_burst n i w' h') as [w2 h2] end.
  reflexivity.
Qed.

(** Every other press: plain burst. *)
Lemma start_press_self_plain w h :
  MULTIPLIER_ENABLED (config h) = false
  \/ (last_release_time h <= 0)%Q
  \/ (MULTIPLIER_THRESHOLD (config h) <= (time_time w).1 - last_release_time h)%Q
  \/ SLOW_TAP_ENABLED (config h) = false
  \/ (~ last_release_time h == 0
      /\ SLOW_TAP_THRESHOLD (config h) <= (time_time w).1 - last_release_time h)%Q ->
  start_press_self w h =
    watch_for_hold
      (_start_burst (SLOW_BURST_COUNT (config h)) (SLOW_BURST_INTERVAL (config h))
         (time_time w).2 (armed w h)).
Proof.
  intros Hc.
  unfold start_press_self, armed, watch_for_hold, _handle_slow_tap.
  destruct (time_time w) as [now w1]. simpl in *.
  match goal with
  | |- (let '(_, _) := (if ?c then _ else _) in _) = _ =>
      destruct c eqn:Ec
  end.
  - match goal with
    | |- context [if ?m then (_, _) else (_, _)] =>
        assert (m = false) as ->
    end.
    { apply andb_prop in Ec as [Et Etap].
      destruct Hc as [Hc|[Hc|[Hc|[Hc|[Hc1 Hc2]]]]].
      - now rewrite Hc.
      - apply Qgt_bool_false in Hc. rewrite Hc. now rewrite andb_false_r.
      - apply Qlt_bool_false in Hc. rewrite Hc. apply andb_false_r.
      - congruence.
      - apply orb_prop in Etap as [Etap|Etap].
        + apply Qeq_bool_iff in Etap. contradiction.
        + apply Qlt_bool_false in Hc2. congruence. }
    match goal with |- context [_start_burst ?n ?i ?w' ?h'] =>
      destruct (_start_burst n i w' h') as [w2 h2] end.
    reflexivity.
  - match goal with |- context [_start_burst ?n ?i ?w' ?h'] =>
      destruct (_start_burst n i w' h') as [w2 h2] end.
    reflexivity.
Qed.

Lemma watch_for_hold_frame (k : W * Handler) :
  let h' := (watch_for_hold k).2 in
  trigger_count h' = trigger_count k.2
  /\ _current_burst_interval h' = _current_burst_interval k.2
  /\ is_pressed h' = is_pressed k.2
  /\ burst_remaining h' = burst_remaining k.2
  /\ burst_active h' = burst_active k.2
  /\ burst_timer h' = burst_timer k.2
  /\ unchanged_trigger_count h' = unchanged_trigger_count k.2
  /\ last_brush_size h' = last_brush_size k.2
  /\ last_release_time h' = last_release_time k.2
  /\ config h' = config k.2
  /\ paired_handler h' = paired_handler k.2
  /\ action_name h' = action_name k.2.
Proof.
  unfold watch_for_hold. destruct (_ && _); simpl; repeat split.
Qed.

End Pressing.

(** ** The burst a press starts *)

Section BurstSelection.

Context {W : Type} `{Env W}.

Lemma burst_of_start n i (w : W) h :
  is_pressed h = true ->
  trigger_count h = 0 ->
  burst_of n i (watch_for_hold (_start_burst n i w h)).2.
Proof.
  intros Hp Hc.
  pose proof (watch_for_hold_frame (_start_burst n i w h)) as F.
  pose proof (_start_burst_frame n i w h) as S.
  cbv zeta in F, S.
  destruct F as (F1 & F2 & F3 & F4 & F5 & F6 & _).
  destruct S as (S1 & S2 & S3 & _).
  set (h' := (watch_for_hold (_start_burst n i w h)).2) in *.
  assert (is_pressed h' = true) as Hp' by congruence.
  assert (trigger_count h' = 1) as Hc' by (rewrite F1, S1, Hc; reflexivity).
  assert (1 < n ->
          burst_active h' = true
          /\ burst_remaining h' = n - 1
          /\ isActive (burst_timer h') = true
          /\ interval (burst_timer h') = py_int (i * 1000)) as Hmany.
  { intros Hn. rewrite F4, F5, F6.
    rewrite _start_burst_many by assumption. cbn. auto. }
  split; [assumption|]. split; [assumption|]. split; [congruence|].
  split; [intros Hn; split; now apply Hmany|].
  split.
  { intros ws Hlen.
    destruct Hmany as (M1 & M2 & M3 & M4); [lia|].
    assert (_current_burst_interval h' = i) as Ei by congruence.
    destruct (burst_midway ws h' Hp' M3) as (B1 & _ & B3 & B4 & _);
      [rewrite Ei; exact M4 | lia |].
    rewrite B1, B3, B4, Hc', Ei. auto. }
  intros Hn ws Hlen.
  destruct (Z.eq_dec n 1) as [->|Hn1].
  - assert (burst_remaining h' = 0 /\ burst_active h' = false) as [R A].
    { rewrite F4, F5. rewrite _start_burst_single by lia.
      match goal with |- context [_finish_burst ?w' ?h''] =>
        pose proof (_finish_burst_frame w' h'') as G end.
      cbv zeta in G. tauto. }
    destruct (burst_timer_fires_over ws h' R A) as (O1 & O2 & _).
    rewrite O1, O2. auto.
  - destruct Hmany as (M1 & M2 & M3 & M4); [lia|].
    destruct (burst_total ws h' Hp' M3) as (T1 & T2 & _); [lia | lia |].
    rewrite T1, T2, Hc', M2. split; [lia | reflexivity].
Qed.

(** The host side of a burst. *)
Lemma _finish_burst_host w h :
  (_finish_burst w h).1
  = hold_takes_over (is_pressed h && HOLD_ENABLED (config h)) w.
Proof.
  unfold _finish_burst, hold_takes_over.
  cbn [is_pressed config set_burst_active set_burst_remaining].
  destruct (is_pressed h && HOLD_ENABLED (config h)); [|reflexivity].
  now destruct (time_time w).
Qed.

Lemma watch_for_hold_host (k : W * Handler) : (watch_for_hold k).1 = k.1.
Proof. unfold watch_for_hold. now destruct (_ && _). Qed.

Lemma _start_burst_host n i w h :
  is_pressed h = true ->
  (_start_burst n i w h).1
  = (if 1 <? n then action_trigger (action_name h) w
     else hold_takes_over (HOLD_ENABLED (config h))
            (action_trigger (action_name h) w)).
Proof.
  intros Hp. destruct (1 <? n) eqn:E.
  - apply Z.ltb_lt in E. now rewrite _start_burst_many.
  - apply Z.ltb_ge in E. rewrite _start_burst_single by assumption.
    rewrite _finish_burst_host. cbn. now rewrite Hp.
Qed.

Lemma burst_timer_timeout_names w h :
  action_name (burst_timer_timeout w h).2 = action_name h
  /\ config (burst_timer_timeout w h).2 = config h.
Proof.
  unfold burst_timer_timeout.
  destruct (isActive (burst_timer h)); [|auto].
  unfold _on_burst_timer, _trigger_action. cbv zeta.
  destruct (_ && _).
  - destruct (0 <? _).
    + cbn. auto.
    + match goal with |- context [_finish_burst ?w' ?h'] =>
        pose proof (_finish_burst_frame w' h') as F end.
      cbv zeta in F. destruct F as (_ & _ & _ & _ & _ & _ & _ & _ & _ & F1 & _ & F2).
      rewrite F1, F2. cbn. auto.
  - match goal with |- context [_finish_burst ?w' ?h'] =>
      pose proof (_finish_burst_frame w' h') as F end.
    cbv zeta in F. destruct F as (_ & _ & _ & _ & _ & _ & _ & _ & _ & F1 & _ & F2).
    rewrite F1, F2. cbn. auto.
Qed.

Lemma burst_timer_fires_names ws : forall h,
  action_name (burst_timer_fires ws h) = action_name h
  /\ config (burst_timer_fires ws h) = config h.
Proof.
  induction ws as [|w ws IH]; intros h; [auto|].
  cbn [burst_timer_fires].
  destruct (IH (burst_timer_timeout w h).2) as [I1 I2].
  destruct (burst_timer_timeout_names w h) as [N1 N2].
  split; congruence.
Qed.

(** One firing of the burst timer with steps left and the key down: the
    action is triggered on the host of the firing, and the last step is
    followed by the takeover of hold mode. *)
Lemma burst_timer_timeout_host w h :
  is_pressed h = true ->
  isActive (burst_timer h) = true ->
  0 < burst_remaining h ->
  (burst_timer_timeout w h).1
  = (if 1 <? burst_remaining h then action_trigger (action_name h) w
     else hold_takes_over (HOLD_ENABLED (config h))
            (action_trigger (action_name h) w)).
Proof.
  intros Hp Ha Hr. unfold burst_timer_timeout. rewrite Ha.
  unfold _on_burst_timer, _trigger_action. cbv zeta.
  cbn [burst_remaining is_pressed set_burst_timer set_trigger_count
       set_burst_remaining action_name].
  rewrite Hp. rewrite (proj2 (Z.ltb_lt 0 (burst_remaining h)) Hr). cbn [andb].
  destruct (1 <? burst_remaining h) eqn:E.
  - apply Z.ltb_lt in E.
    rewrite (proj2 (Z.ltb_lt 0 (burst_remaining h - 1))) by lia. reflexivity.
  - apply Z.ltb_ge in E.
    rewrite (proj2 (Z.ltb_ge 0 (burst_remaining h - 1))) by lia.
    rewrite _finish_burst_host. cbn. now rewrite Hp.
Qed.

(** With no step left the burst timer is not pending after a firing. *)
Lemma burst_timer_timeout_spent w h :
  burst_remaining h = 0 ->
  burst_remaining (burst_timer_timeout w h).2 = 0
  /\ isActive (burst_timer (burst_timer_timeout w h).2) = false.
Proof.
  intros Hr. unfold burst_timer_timeout.
  destruct (isActive (burst_timer h)) eqn:Ha; [|auto].
  unfold _on_burst_timer. cbn [burst_remaining set_burst_timer].
  rewrite Hr. cbn [Z.ltb Z.compare andb].
  match goal with |- context [_finish_burst ?w' ?h'] =>
    pose proof (_finish_burst_frame w' h') as F end.
  cbv zeta in F. destruct F as (_ & _ & _ & F4 & F5 & _).
  rewrite F4, F5. cbn. auto.
Qed.

(** The host side of the steps a started burst has left. *)
Lemma burst_steps_on_host ws (w' : W) h :
  is_pressed h = true ->
  isActive (burst_timer h) = true ->
  interval (burst_timer h) = py_int (_current_burst_interval h * 1000) ->
  0 < burst_remaining h ->
  (burst_timer_timeout w' (burst_timer_fires ws h)).1
  = (if Z.of_nat (length ws) <? burst_remaining h - 1
     then action_trigger (action_name h) w'
     else if Z.of_nat (length ws) =? burst_remaining h - 1
     then hold_takes_over (HOLD_ENABLED (config h))
            (action_trigger (action_name h) w')
     else w').
Proof.
  intros Hp Ha Hi Hr.
  destruct (burst_timer_fires_names ws h) as [N1 N2].
  destruct (Z_lt_le_dec (Z.of_nat (length ws)) (burst_remaining h)) as [Hl|Hl].
  - destruct (burst_midway ws h Hp Ha Hi Hl) as (_ & B2 & B3 & _ & B5).
    rewrite burst_timer_timeout_host by (auto; lia).
    rewrite B2, N1, N2.
    destruct (Z.of_nat (length ws) <? burst_remaining h - 1) eqn:E.
    + apply Z.ltb_lt in E.
      now rewrite (proj2 (Z.ltb_lt 1 (burst_remaining h - Z.of_nat (length ws))))
        by lia.
    + apply Z.ltb_ge in E.
      rewrite (proj2 (Z.ltb_ge 1 (burst_remaining h - Z.of_nat (length ws))))
        by lia.
      now rewrite (proj2 (Z.eqb_eq (Z.of_nat (length ws)) (burst_remaining h - 1)))
        by lia.
  - rewrite (proj2 (Z.ltb_ge (Z.of_nat (length ws)) (burst_remaining h - 1)))
      by lia.
    rewrite (proj2 (Z.eqb_neq (Z.of_nat (length ws)) (burst_remaining h - 1)))
      by lia.
    rewrite <- (take_drop (Z.to_nat (burst_remaining h)) ws).
    rewrite burst_timer_fires_app.
    destruct (burst_completes (take (Z.to_nat (burst_remaining h)) ws) h Hp Ha Hr)
      as (_ & _ & _ & B4 & _).
    { rewrite length_take. lia. }
    rewrite burst_timer_fires_inactive by assumption.
    now rewrite burst_timer_timeout_inactive.
Qed.

Lemma burst_on_host_steps name hold n (w : W) (k : W * Handler) :
  k.1 = (if 1 <? n then action_trigger name w
         else hold_takes_over hold (action_trigger name w)) ->
  is_pressed k.2 = true ->
  action_name k.2 = name ->
  HOLD_ENABLED (config k.2) = hold ->
  (1 < n ->
   burst_remaining k.2 = n - 1
   /\ isActive (burst_timer k.2) = true
   /\ interval (burst_timer k.2) = py_int (_current_burst_interval k.2 * 1000)) ->
  (n <= 1 -> burst_remaining k.2 = 0) ->
  burst_on_host name hold n w k.
Proof.
  destruct k as [w1 h']. cbn [fst snd].
  intros Hw Hp' Hn Hc Hmany Hsingle.
  split; [exact Hw|]. cbn [snd].
  split; [|split].
  - intros ws w' Hl. destruct Hmany as (M1 & M2 & M3); [lia|].
    rewrite (burst_steps_on_host ws w' h' Hp' M2 M3) by lia.
    rewrite M1, Hn.
    now rewrite (proj2 (Z.ltb_lt (Z.of_nat (length ws)) (n - 1 - 1))) by lia.
  - intros ws w' Hl. destruct Hmany as (M1 & M2 & M3); [lia|].
    rewrite (burst_steps_on_host ws w' h' Hp' M2 M3) by lia.
    rewrite M1, Hn, Hc.
    rewrite (proj2 (Z.ltb_ge (Z.of_nat (length ws)) (n - 1 - 1))) by lia.
    now rewrite (proj2 (Z.eqb_eq (Z.of_nat (length ws)) (n - 1 - 1))) by lia.
  - intros ws w' Hl Hfirst.
    destruct (Z_lt_le_dec 1 n) as [H1|H1].
    + destruct Hmany as (M1 & M2 & M3); [lia|].
      rewrite (burst_steps_on_host ws w' h' Hp' M2 M3) by lia.
      rewrite M1.
      rewrite (proj2 (Z.ltb_ge (Z.of_nat (length ws)) (n - 1 - 1))) by lia.
      now rewrite (proj2 (Z.eqb_neq (Z.of_nat (length ws)) (n - 1 - 1))) by lia.
    + specialize (Hsingle H1).
      destruct ws as [|w2 ws].
      * cbn [burst_timer_fires].
        rewrite burst_timer_timeout_inactive; [reflexivity|].
        destruct (isActive (burst_timer h')); [|reflexivity].
        specialize (Hfirst eq_refl eq_refl). lia.
      * cbn [burst_timer_fires].
        destruct (burst_timer_timeout_spent w2 h' Hsingle) as [_ T].
        rewrite burst_timer_fires_inactive by assumption.
        now rewrite burst_timer_timeout_inactive.
Qed.

Lemma _start_burst_left n i (w : W) h :
  (1 < n ->
   burst_remaining (_start_burst n i w h).2 = n - 1
   /\ isActive (burst_timer (_start_burst n i w h).2) = true
   /\ interval (burst_timer (_start_burst n i w h).2) = py_int (i * 1000))
  /\ (n <= 1 -> burst_remaining (_start_burst n i w h).2 = 0).
Proof.
  split; intros H1.
  - rewrite _start_burst_many by assumption.
    cbn [snd burst_remaining burst_timer set_burst_timer set_burst_remaining
         QTimer_start isActive interval]. auto.
  - rewrite _start_burst_single by assumption.
    match goal with |- context [_finish_burst ?w' ?h''] =>
      pose proof (_finish_burst_frame w' h'') as G end.
    cbv zeta in G. tauto.
Qed.

Lemma burst_on_host_start n i (w : W) h :
  is_pressed h = true ->
  burst_on_host (action_name h) (HOLD_ENABLED (config h)) n w
    (watch_for_hold (_start_burst n i w h)).
Proof.
  intros Hp.
  pose proof (watch_for_hold_frame (_start_burst n i w h)) as F.
  pose proof (_start_burst_frame n i w h) as S.
  pose proof (_start_burst_left n i w h) as [L1 L2].
  cbv zeta in F, S.
  destruct F as (_ & F2 & F3 & F4 & F5 & F6 & _ & _ & _ & F10 & _ & F12).
  destruct S as (_ & S2 & S3 & _ & _ & _ & S7 & _ & S9).
  apply burst_on_host_steps.
  - rewrite watch_for_hold_host. now apply _start_burst_host.
  - congruence.
  - congruence.
  - congruence.
  - intros H1. destruct (L1 H1) as (A & B & C). rewrite F4, F6, F2, S2. auto.
  - intros H1. rewrite F4. now apply L2.
Qed.

Lemma start_press_host a (w : W) (σ : gmap nat Handler) h :
  σ !! a = Some h ->
  is_pressed h = false ->
  (start_press a (w, σ)).1 = (start_press_self w h).1.
Proof.
  intros Ha Hp. now rewrite (start_press_idle a w σ h Ha Hp).
Qed.

(** C7. A press from Idle under tap mode. With a release on record, the
    time since that release below the tap threshold, multiplier mode enabled
    and the time since the release below the multiplier threshold too, the
    press starts a burst of [SLOW_BURST_COUNT * MULTIPLIER_BURST_COUNT] steps
    spaced [MULTIPLIER_BURST_INTERVAL]. When the tap condition holds (no
    release on record, or the time since it below the tap threshold) and the
    multiplier condition does not, it starts a burst of [SLOW_BURST_COUNT]
    steps spaced [SLOW_BURST_INTERVAL]. Every step of the burst reaches the
    host: the press itself triggers the action of the handler once on the
    host, each firing of the burst timer with steps left triggers it once
    more on the host of that firing, and once the steps are used up a firing
    leaves the host as it is. *)
Theorem start_press_selects_burst a (w : W) (σ : gmap nat Handler) h :
  σ !! a = Some h ->
  is_pressed h = false ->
  SLOW_TAP_ENABLED (config h) = true ->
  exists h',
    (start_press a (w, σ)).2 !! a = Some h'
    /\ ((0 < last_release_time h)%Q ->
        ((time_time w).1 - last_release_time h < SLOW_TAP_THRESHOLD (config h))%Q ->
        MULTIPLIER_ENABLED (config h) = true ->
        ((time_time w).1 - last_release_time h < MULTIPLIER_THRESHOLD (config h))%Q ->
        burst_of (SLOW_BURST_COUNT (config h) * MULTIPLIER_BURST_COUNT (config h))
                 (MULTIPLIER_BURST_INTERVAL (config h)) h'
        /\ burst_on_host (action_name h) (HOLD_ENABLED (config h))
             (SLOW_BURST_COUNT (config h) * MULTIPLIER_BURST_COUNT (config h))
             (time_time w).2 ((start_press a (w, σ)).1, h'))
    /\ ((last_release_time h == 0)%Q
        \/ ((time_time w).1 - last_release_time h < SLOW_TAP_THRESHOLD (config h))%Q ->
        MULTIPLIER_ENABLED (config h) = false
        \/ (last_release_time h <= 0)%Q
        \/ (MULTIPLIER_THRESHOLD (config h) <= (time_time w).1 - last_release_time h)%Q ->
        burst_of (SLOW_BURST_COUNT (config h)) (SLOW_BURST_INTERVAL (config h)) h'
        /\ burst_on_host (action_name h) (HOLD_ENABLED (config h))
             (SLOW_BURST_COUNT (config h)) (time_time w).2
             ((start_press a (w, σ)).1, h')).
Proof.
  intros Ha Hp Ht.
  exists (start_press_self w h).2.
  split; [now apply start_press_idle_self|].
  rewrite (start_press_host a w σ h Ha Hp), <- surjective_pairing.
  split.
  - intros Hr Htap Hm Hmul.
    rewrite start_press_self_multiplied by assumption.
    split; [apply burst_of_start; reflexivity|].
    exact (burst_on_host_start _ _ (time_time w).2 (armed w h) eq_refl).
  - intros _ Hc.
    rewrite start_press_self_plain by tauto.
    split; [apply burst_of_start; reflexivity|].
    exact (burst_on_host_start _ _ (time_time w).2 (armed w h) eq_refl).
Qed.

End BurstSelection.

(** ** A tap released before its burst is over *)

Section EarlyRelease.

Context {W : Type} `{Env W}.

(** Whatever the classification, a press starts one burst. *)
Lemma start_press_self_cases w h :
  exists n i,
    start_press_self w h =
      watch_for_hold (_start_burst n i (time_time w).2 (armed w h)).
Proof.
  destruct (SLOW_TAP_ENABLED (config h)) eqn:Ht;
    [|eexists _, _; apply start_press_self_plain; tauto].
  destruct (MULTIPLIER_ENABLED (config h)) eqn:Hm;
    [|eexists _, _; apply start_press_self_plain; tauto].
  destruct (Qlt_le_dec 0 (last_release_time h)) as [Hr|Hr];
    [|eexists _, _; apply start_press_self_plain; tauto].
  destruct (Qlt_le_dec ((time_time w).1 - last_release_time h)
              (MULTIPLIER_THRESHOLD (config h))) as [Hmul|Hmul];
    [|eexists _, _; apply start_press_self_plain; tauto].
  destruct (Qlt_le_dec ((time_time w).1 - last_release_time h)
              (SLOW_TAP_THRESHOLD (config h))) as [Htap|Htap].
  - eexists _, _. now apply start_press_self_multiplied.
  - eexists _, _. apply start_press_self_plain.
    right; right; right; right. split; [|assumption].
    intros E. rewrite E in Hr. now apply Qlt_irrefl in Hr.
Qed.

Lemma start_press_self_frame w h :
  let h' := (start_press_self w h).2 in
  is_pressed h' = true
  /\ trigger_count h' = 1
  /\ unchanged_trigger_count h' = 0
  /\ last_release_time h' = last_release_time h
  /\ config h' = config h
  /\ paired_handler h' = paired_handler h
  /\ action_name h' = action_name h.
Proof.
  destruct (start_press_self_cases w h) as (n & i & E).
  cbv zeta. rewrite E.
  pose proof (watch_for_hold_frame (_start_burst n i (time_time w).2 (armed w h))) as F.
  pose proof (_start_burst_frame n i (time_time w).2 (armed w h)) as S.
  cbv zeta in F, S.
  destruct F as (F1 & F2 & F3 & F4 & F5 & F6 & F7 & F8 & F9 & F10 & F11 & F12).
  destruct S as (S1 & S2 & S3 & S4 & S5 & S6 & S7 & S8 & S9).
  rewrite F1, F3, F7, F9, F10, F11, F12, S1, S3, S4, S6, S7, S8, S9.
  cbn. repeat split.
Qed.

(** C2, amended. A press from Idle followed at once by the release fires
    one trigger in all, the one [start_press] fires itself: [end_press]
    stops both timers and drops the steps that were left, so no firing of
    the burst timer or of the poll timer afterwards changes the handler; and
    a burst step that runs while the key is not pressed fires nothing and
    ends the burst without rescheduling. *)
Theorem release_cancels_burst a (w w' : W) (σ : gmap nat Handler) h :
  σ !! a = Some h ->
  is_pressed h = false ->
  exists h1 h2,
    (start_press a (w, σ)).2 !! a = Some h1
    /\ is_pressed h1 = true
    /\ trigger_count h1 = 1
    /\ (call a end_press (w', (start_press a (w, σ)).2)).2 !! a = Some h2
    /\ is_pressed h2 = false
    /\ trigger_count h2 = 1
    /\ isActive (burst_timer h2) = false
    /\ burst_remaining h2 = 0
    /\ burst_active h2 = false
    /\ (forall ws : list W, burst_timer_fires ws h2 = h2)
    /\ (forall w'' : W, timer_timeout w'' h2 = Returned (w'', h2))
    /\ (forall w'' : W,
          (_on_burst_timer w'' h2).1 = w''
          /\ trigger_count (_on_burst_timer w'' h2).2 = 1
          /\ isActive (burst_timer (_on_burst_timer w'' h2).2) = false).
Proof.
  intros Ha Hp.
  pose proof (start_press_idle_self a w σ h Ha Hp) as E1.
  destruct (start_press_self_frame w h) as (P1 & P2 & _).
  set (h1 := (start_press_self w h).2) in *. clearbody h1.
  exists h1, (set_last_release_time (time_time w').1 (force_stop "" h1)).
  split; [assumption|]. split; [assumption|]. split; [assumption|].
  split.
  { rewrite (call_lookup a _ w' _ h1 E1). cbn [snd].
    rewrite lookup_insert_eq. now rewrite end_press_pressed. }
  split; [reflexivity|]. split; [exact P2|].
  split; [reflexivity|]. split; [reflexivity|]. split; [reflexivity|].
  split.
  { intros ws. now apply burst_timer_fires_inactive. }
  split.
  { intros w''. unfold timer_timeout.
    cbn [timer isActive set_last_release_time force_stop set_is_pressed
         _cleanup_state set_unchanged_trigger_count set_burst_active
         set_burst_remaining set_burst_timer set_timer QTimer_stop].
    reflexivity. }
  intros w''. rewrite _on_burst_timer_released by reflexivity.
  cbn. auto.
Qed.

End EarlyRelease.

(** ** A forced stop leaves the release time alone *)

Section ForcedStop.

Context {W : Type} `{Env W}.

(** C6. In any state [force_stop] stops both timers, clears the burst state
    and marks the handler not pressed, and [last_release_time] keeps its
    value; [end_press] on a pressed handler does the same and stamps
    [last_release_time] with the current time. So a release at [w1], a new
    press at [w2] and a forced stop leave the time of [w1] on record, and
    the press that comes next, at [w3], is classified against that time:
    below both thresholds it starts the multiplied burst. *)
Theorem force_stop_keeps_release_time reason (w1 w2 w3 : W) h :
  (is_pressed (force_stop reason h) = false
   /\ isActive (timer (force_stop reason h)) = false
   /\ isActive (burst_timer (force_stop reason h)) = false
   /\ burst_remaining (force_stop reason h) = 0
   /\ burst_active (force_stop reason h) = false
   /\ last_release_time (force_stop reason h) = last_release_time h)
  /\ (is_pressed h = true ->
      end_press w1 h =
        ((time_time w1).2,
         set_last_release_time (time_time w1).1 (force_stop reason h)))
  /\ (is_pressed h = true ->
      last_release_time
        (force_stop reason (start_press_self w2 (end_press w1 h).2).2)
      = (time_time w1).1)
  /\ (SLOW_TAP_ENABLED (config h) = true ->
      MULTIPLIER_ENABLED (config h) = true ->
      (0 < last_release_time h)%Q ->
      ((time_time w3).1 - last_release_time h < SLOW_TAP_THRESHOLD (config h))%Q ->
      ((time_time w3).1 - last_release_time h < MULTIPLIER_THRESHOLD (config h))%Q ->
      burst_of (SLOW_BURST_COUNT (config h) * MULTIPLIER_BURST_COUNT (config h))
               (MULTIPLIER_BURST_INTERVAL (config h))
               (start_press_self w3 (force_stop reason h)).2).
Proof.
  split; [repeat split|].
  split; [intros Hp; now rewrite end_press_pressed|].
  split.
  - intros Hp. rewrite end_press_pressed by assumption. cbn [snd].
    destruct (start_press_self_frame w2
                (set_last_release_time (time_time w1).1 (force_stop "" h)))
      as (_ & _ & _ & R & _).
    destruct (force_stop_frame reason
                (start_press_self w2
                   (set_last_release_time (time_time w1).1 (force_stop "" h))).2)
      as (F & _).
    rewrite F, R. reflexivity.
  - intros Ht Hm Hr Htap Hmul.
    rewrite start_press_self_multiplied by assumption.
    apply burst_of_start; reflexivity.
Qed.

End ForcedStop.

(** ** Stale state *)

Section Stale.

Context {W : Type} `{Env W}.

(** C9. [is_stale_state] answers true exactly when the handler is marked
    pressed and the current time is more than [STALE_STATE_TIMEOUT] (0.5 s)
    past [last_timer_activity]; on such a handler
    [check_and_fix_stale_state] returns true and force-stops it (not
    pressed, both timers stopped), on any other it returns false and leaves
    the handler as it is. *)
Theorem stale_state_recovery (w : W) h :
  ((is_stale_state w h).1 = true <->
     is_pressed h = true
     /\ (STALE_STATE_TIMEOUT < (time_time w).1 - last_timer_activity h)%Q)
  /\ ((is_stale_state w h).1 = true ->
      (check_and_fix_stale_state w h).1 = true
      /\ (check_and_fix_stale_state w h).2.2 = force_stop "stale state detected" h
      /\ is_pressed (check_and_fix_stale_state w h).2.2 = false
      /\ isActive (timer (check_and_fix_stale_state w h).2.2) = false
      /\ isActive (burst_timer (check_and_fix_stale_state w h).2.2) = false)
  /\ ((is_stale_state w h).1 = false ->
      (check_and_fix_stale_state w h).1 = false
      /\ (check_and_fix_stale_state w h).2.2 = h).
Proof.
  split; [|split].
  - unfold is_stale_state. destruct (is_pressed h); cbn [negb].
    + destruct (time_time w) as [now w1]. cbn [fst].
      rewrite Qgt_bool_iff. tauto.
    + cbn [fst]. split; [discriminate | intros [? _]; discriminate].
  - intros E. unfold check_and_fix_stale_state.
    destruct (is_stale_state w h) as [stale w1]. cbn [fst] in E. subst stale.
    cbn. auto.
  - intros E. unfold check_and_fix_stale_state.
    destruct (is_stale_state w h) as [stale w1]. cbn [fst] in E. subst stale.
    cbn. auto.
Qed.

End Stale.

(** ** Mutual exclusion of paired handlers *)

Section MutualExclusion.

Context {W : Type} `{Env W}.

Lemma quiet_end_press : quiet end_press.
Proof.
  intros w h. destruct (is_pressed h) eqn:E.
  - rewrite end_press_pressed by assumption. cbn. split; [reflexivity | discriminate].
  - rewrite end_press_idle by assumption. cbn. split; [reflexivity | congruence].
Qed.

Lemma quiet_force_stop reason : quiet (fun (w : W) h => (w, force_stop reason h)).
Proof. intros w h. cbn. split; [reflexivity | discriminate]. Qed.

Lemma quiet_set_config c : quiet (fun (w : W) h => (w, set_config c h)).
Proof. intros w h. cbn. auto. Qed.

Lemma quiet_check_stale : quiet (fun w h => (check_and_fix_stale_state w h).2).
Proof.
  intros w h. unfold check_and_fix_stale_state.
  destruct (is_stale_state w h) as [[] w1]; cbn; auto.
  split; [reflexivity | discriminate].
Qed.

Lemma _trigger_action_with_safety_check_frame w h :
  let h' := (_trigger_action_with_safety_check w h).2 in
  paired_handler h' = paired_handler h
  /\ (is_pressed h' = true -> is_pressed h = true)
  /\ trigger_count h' = trigger_count h + 1
  /\ last_release_time h' = last_release_time h
  /\ config h' = config h.
Proof.
  unfold _trigger_action_with_safety_check, _trigger_action. cbv zeta.
  destruct (brushSize w) as [b|]; [|cbn; auto].
  destruct (brushSize (action_trigger _ w)) as [a|]; [|cbn; auto].
  destruct (Qlt_bool _ _); [|cbn; auto].
  destruct (MAX_UNCHANGED_TRIGGERS <=? _); cbn; auto.
  repeat split; discriminate.
Qed.

Lemma quiet_timer_timeout : quiet (fun w h => state_of (timer_timeout w h)).
Proof.
  intros w h. unfold timer_timeout.
  destruct (isActive (timer h)); [|cbn; auto].
  unfold _on_timer.
  destruct (is_pressed h) eqn:Hp; cbn [negb]; [|cbn; rewrite Hp; auto].
  destruct (time_time w) as [now w1].
  destruct (Qgt_bool _ MAX_PRESS_DURATION); [cbn; auto|].
  match goal with
  | |- context [if negb (InputMode_eqb (current_mode ?hh) HOLD) then _ else _] =>
      set (h1 := hh);
      assert (paired_handler h1 = paired_handler h /\ is_pressed h1 = true) as [P1 P2]
        by (subst h1; destruct (_ && _); cbn; auto)
  end.
  destruct (negb (InputMode_eqb (current_mode h1) HOLD)); [cbn; split; auto; congruence|].
  destruct (_get_current_interval h1 _) as [i|]; [|cbn; split; auto; congruence].
  destruct (Qge_bool _ i); [|cbn; split; auto; congruence].
  pose proof (_trigger_action_with_safety_check_frame w1 h1) as F. cbv zeta in F.
  destruct (_trigger_action_with_safety_check w1 h1) as [w2 h2].
  cbn in *. split; [intuition congruence | auto].
Qed.

Lemma quiet_burst_timer_timeout : quiet burst_timer_timeout.
Proof.
  intros w h. unfold burst_timer_timeout.
  destruct (isActive (burst_timer h)); [|cbn; auto].
  unfold _on_burst_timer, _trigger_action. cbv zeta.
  repeat match goal with
    | |- context [_finish_burst ?w' ?h'] =>
        let F := fresh "F" in
        pose proof (_finish_burst_frame w' h') as F; cbv zeta in F;
        destruct F as (? & _ & _ & _ & _ & _ & _ & _ & _ & _ & ? & _);
        generalize dependent (_finish_burst w' h'); intros
    end.
  break_match; cbn in *; split; congruence.
Qed.

Lemma pressed_insert (σ : gmap nat Handler) a x h :
  pressed (<[a := h]> σ) x = if decide (a = x) then is_pressed h else pressed σ x.
Proof.
  unfold pressed. rewrite lookup_insert. now destruct (decide (a = x)).
Qed.

(** A quiet method called on [a]: no pairing changes and nobody becomes
    pressed. *)
Lemma call_quiet a m (k : W * gmap nat Handler) x :
  quiet m ->
  paired_handler <$> (call a m k).2 !! x = paired_handler <$> k.2 !! x
  /\ (pressed (call a m k).2 x = true -> pressed k.2 x = true).
Proof.
  intros Q. destruct k as [w σ].
  destruct (σ !! a) as [h|] eqn:Ha.
  - rewrite (call_lookup a m w σ h Ha). cbn [snd].
    destruct (Q w h) as [Q1 Q2].
    rewrite pressed_insert, lookup_insert.
    destruct (decide (a = x)) as [->|Hne].
    + unfold pressed. rewrite Ha. cbn. split; [congruence | assumption].
    + auto.
  - rewrite call_missing by assumption. auto.
Qed.

(** [start_press] on [a]: no pairing changes, and only [a] can become
    pressed. *)
Lemma start_press_others a (k : W * gmap nat Handler) x :
  paired_handler <$> (start_press a k).2 !! x = paired_handler <$> k.2 !! x
  /\ (x <> a -> pressed (start_press a k).2 x = true -> pressed k.2 x = true).
Proof.
  destruct k as [w σ].
  destruct (σ !! a) as [h|] eqn:Ha;
    [|unfold start_press; cbn [snd]; rewrite Ha; auto].
  destruct (is_pressed h) eqn:Hp;
    [rewrite (start_press_pressed a w σ h Ha Hp); auto|].
  rewrite (start_press_idle a w σ h Ha Hp). cbn [snd].
  destruct (start_press_self_frame w h) as (_ & _ & _ & _ & _ & P & _).
  assert (paired_handler <$> (stop_paired a (w, σ)).2 !! x
            = paired_handler <$> σ !! x
          /\ (pressed (stop_paired a (w, σ)).2 x = true -> pressed σ x = true))
    as [S1 S2].
  { destruct (paired_is_pressed h σ) eqn:E.
    - unfold paired_is_pressed in E.
      destruct (paired_handler h) as [b|] eqn:Hb; [|discriminate].
      destruct (σ !! b) as [hb|] eqn:Hhb; [|discriminate].
      rewrite (stop_paired_pressed a b w σ h hb) by assumption. cbn [snd].
      rewrite pressed_insert, lookup_insert.
      destruct (decide (b = x)) as [->|Hne]; [|auto].
      rewrite Hhb. cbn. split; [reflexivity | discriminate].
    - rewrite (stop_paired_idle a w σ h) by assumption. auto. }
  rewrite pressed_insert, lookup_insert.
  destruct (decide (a = x)) as [->|Hne].
  - split; [|congruence].
    destruct (stop_paired_self x w σ h Ha Hp) as [_ E].
    rewrite <- S1, E. cbn. congruence.
  - split; [assumption | auto].
Qed.

(** After [start_press] on an idle [a] whose paired handler is another
    object, that paired handler is not pressed. *)
Lemma start_press_stops_paired a b (w : W) (σ : gmap nat Handler) h :
  σ !! a = Some h ->
  is_pressed h = false ->
  paired_handler h = Some b ->
  a <> b ->
  pressed (start_press a (w, σ)).2 b = false.
Proof.
  intros Ha Hp Hb Hne.
  rewrite (start_press_idle a w σ h Ha Hp). cbn [snd].
  rewrite pressed_insert. destruct (decide (a = b)) as [|_]; [contradiction|].
  destruct (paired_is_pressed h σ) eqn:E.
  - pose proof E as E'. unfold paired_is_pressed in E'. rewrite Hb in E'.
    destruct (σ !! b) as [hb|] eqn:Hhb; [|discriminate].
    rewrite (stop_paired_pressed a b w σ h hb) by assumption. cbn [snd].
    rewrite pressed_insert. now destruct (decide (b = b)).
  - rewrite (stop_paired_idle a w σ h) by assumption. cbn [snd].
    unfold paired_is_pressed in E. rewrite Hb in E. exact E.
Qed.

Lemma wired_sym σ a b : wired σ a b -> wired σ b a.
Proof. intros (ha & hb & ? & ? & ? & ?). exists hb, ha. auto. Qed.

Lemma exclusive_sym σ a b : exclusive σ a b -> exclusive σ b a.
Proof. unfold exclusive. tauto. Qed.

(** Pairings are the same before and after any event. *)
Lemma step_pairing e (k : W * gmap nat Handler) x :
  paired_handler <$> (step e k).2 !! x = paired_handler <$> k.2 !! x.
Proof.
  destruct e; cbn [step snd];
    try (apply call_quiet;
         auto using quiet_end_press, quiet_force_stop, quiet_timer_timeout,
           quiet_burst_timer_timeout, quiet_check_stale, quiet_set_config).
  - apply start_press_others.
  - reflexivity.
Qed.

Lemma step_wired e (k : W * gmap nat Handler) a b :
  wired k.2 a b -> wired (step e k).2 a b.
Proof.
  intros (ha & hb & Ha & Hb & Pa & Pb).
  pose proof (step_pairing e k a) as Ea. rewrite Ha in Ea.
  pose proof (step_pairing e k b) as Eb. rewrite Hb in Eb.
  destruct ((step e k).2 !! a) as [ha'|] eqn:Ha'; [|discriminate].
  destruct ((step e k).2 !! b) as [hb'|] eqn:Hb'; [|discriminate].
  cbn in Ea, Eb. exists ha', hb'. repeat split; congruence.
Qed.

(** The only event that marks [x] pressed is [StartPress x]. *)
Lemma step_pressed e (k : W * gmap nat Handler) x :
  e <> StartPress x ->
  pressed (step e k).2 x = true -> pressed k.2 x = true.
Proof.
  intros He.
  destruct e; cbn [step snd];
    try (apply call_quiet;
         auto using quiet_end_press, quiet_force_stop, quiet_timer_timeout,
           quiet_burst_timer_timeout, quiet_check_stale, quiet_set_config).
  - apply start_press_others. congruence.
  - auto.
Qed.

Lemma start_press_exclusive a b (k : W * gmap nat Handler) :
  a <> b -> wired k.2 a b -> exclusive k.2 a b ->
  exclusive (start_press a k).2 a b.
Proof.
  intros Hne (ha & hb & Ha & Hb & Pa & Pb) Hex [Xa Xb].
  destruct k as [w σ]. cbn [snd] in *.
  destruct (is_pressed ha) eqn:Hp.
  - rewrite (start_press_pressed a w σ ha Ha Hp) in Xa, Xb. now apply Hex.
  - rewrite (start_press_stops_paired a b w σ ha) in Xb by assumption.
    discriminate.
Qed.

Lemma step_exclusive e (k : W * gmap nat Handler) a b :
  a <> b -> wired k.2 a b -> exclusive k.2 a b -> exclusive (step e k).2 a b.
Proof.
  intros Hne Hw Hex.
  assert (e <> StartPress a /\ e <> StartPress b -> exclusive (step e k).2 a b)
    as Hother.
  { intros [Ha Hb] [Xa Xb]. apply Hex. split; eapply step_pressed; eauto. }
  destruct e as [c| | | | | | |]; try (apply Hother; split; discriminate).
  destruct (decide (c = a)) as [->|Ha].
  { now apply start_press_exclusive. }
  destruct (decide (c = b)) as [->|Hb].
  { apply exclusive_sym, start_press_exclusive;
      auto using wired_sym, exclusive_sym. }
  apply Hother. split; congruence.
Qed.

Lemma run_invariant evs : forall (k : W * gmap nat Handler) a b,
  a <> b -> wired k.2 a b -> exclusive k.2 a b ->
  wired (run evs k).2 a b /\ exclusive (run evs k).2 a b.
Proof.
  induction evs as [|e evs IH]; intros k a b Hne Hw Hex; [cbn; auto|].
  cbn [run foldl]. apply IH; auto using step_wired, step_exclusive.
Qed.

(** C1. Two handlers wired as each other's [paired_handler] and not both
    pressed to begin with are not both pressed after any sequence of events
    (presses, releases, forced stops, timer firings, stale checks,
    configuration pushes, the host moving on), on these two or on any other
    handler. And in any state so reached in which [b] is pressed,
    [start_press] on [a] force-stops [b] (not pressed, both timers stopped)
    while [a] is still not pressed, and only then runs the rest of the
    method on [a], which marks it pressed. *)
Theorem paired_handlers_never_both_pressed a b (w : W) (σ : gmap nat Handler) evs :
  a <> b ->
  wired σ a b ->
  exclusive σ a b ->
  let k := run evs (w, σ) in
  wired k.2 a b
  /\ ~ (pressed k.2 a = true /\ pressed k.2 b = true)
  /\ (pressed k.2 b = true ->
      exists ha hb,
        k.2 !! a = Some ha /\ k.2 !! b = Some hb
        /\ is_pressed ha = false
        /\ stop_paired a k
           = (k.1, <[b := force_stop "paired handler starting" hb]> k.2)
        /\ (stop_paired a k).2 !! a = Some ha
        /\ start_press a k = call a start_press_self (stop_paired a k)
        /\ (start_press a k).2 !! b = Some (force_stop "paired handler starting" hb)
        /\ is_pressed (force_stop "paired handler starting" hb) = false
        /\ isActive (timer (force_stop "paired handler starting" hb)) = false
        /\ isActive (burst_timer (force_stop "paired handler starting" hb)) = false
        /\ pressed (start_press a k).2 a = true).
Proof.
  intros Hne Hw Hex k.
  destruct (run_invariant evs (w, σ) a b Hne Hw Hex) as [Hw' Hex'].
  fold k in Hw', Hex'.
  split; [assumption|]. split; [assumption|].
  intros Hb.
  destruct Hw' as (ha & hb & Ea & Eb & Pa & Pb).
  exists ha, hb.
  assert (is_pressed hb = true) as Hpb.
  { unfold pressed in Hb. now rewrite Eb in Hb. }
  assert (is_pressed ha = false) as Hpa.
  { destruct (is_pressed ha) eqn:E; [|reflexivity].
    exfalso. apply Hex'. split; [|assumption].
    unfold pressed. now rewrite Ea. }
  destruct k as [w' σ']. cbn [fst snd] in *.
  pose proof (stop_paired_pressed a b w' σ' ha hb Ea Pa Eb Hpb) as Es.
  split; [assumption|]. split; [assumption|]. split; [assumption|].
  split; [assumption|].
  split. { rewrite Es. cbn [snd]. now rewrite lookup_insert_ne by congruence. }
  split. { unfold start_press. cbn [snd]. now rewrite Ea, Hpa. }
  split.
  { rewrite (start_press_idle a w' σ' ha Ea Hpa), Es. cbn [snd].
    rewrite lookup_insert_ne by assumption. apply lookup_insert_eq. }
  split; [reflexivity|]. split; [reflexivity|]. split; [reflexivity|].
  unfold pressed. rewrite (start_press_idle_self a w' σ' ha Ea Hpa).
  apply (start_press_self_frame w' ha).
Qed.

End MutualExclusion.

(** ** The safety check *)

Section Safety.

Context {W : Type} `{Env W}.







End Safety.

(** ** The repeat interval in Hold mode *)

Section HoldInterval.

Context {W : Type} `{Env W}.




End HoldInterval.

(** ** The settings store *)

Lemma complete_DEFAULTS : complete DEFAULTS.
Proof. intros k Hk. exact Hk. Qed.

Lemma complete_insert d k v : complete d -> complete (<[k := v]> d).
Proof.
  intros Hd k' Hk'. rewrite lookup_insert.
  destruct (decide (k = k')); [eauto | auto].
Qed.

Lemma complete_config_of d : complete d -> is_Some (config_of d).
Proof.
  intros Hd. unfold config_of.
  repeat match goal with
    | |- context [d !! ?k] =>
        let v := fresh "v" in
        let E := fresh "E" in
        destruct (Hd k) as [v E]; [vm_compute; eauto|]; rewrite E; cbn [mbind option_bind]
    end.
  eauto.
Qed.

(** The push: every registered handler gets the configuration read out of
    [_current], the other handlers are left alone. *)
Lemma update_each_spec s c l : forall heap : gmap nat Handler,
  config_of (_current s) = Some c ->
  exists heap',
    update_each s l heap = Some heap'
    /\ forall a,
         heap' !! a = if bool_decide (a ∈ l)
                      then set_config c <$> heap !! a
                      else heap !! a.
Proof.
  intros heap Hc. revert heap.
  induction l as [|x l IH]; intros heap.
  - exists heap. split; [reflexivity|]. intros a.
    rewrite bool_decide_eq_false_2; [reflexivity | apply not_elem_of_nil].
  - cbn [update_each]. unfold _apply_to_handler. rewrite Hc. cbn [mbind option_bind].
    destruct (heap !! x) as [h|] eqn:Hx.
    + destruct (IH (<[x := set_config c h]> heap)) as (heap' & E & L).
      exists heap'. split; [assumption|]. intros a. rewrite L.
      rewrite lookup_insert.
      destruct (decide (x = a)) as [->|Hne].
      * rewrite (bool_decide_eq_true_2 (a ∈ a :: l)) by apply list_elem_of_here.
        rewrite Hx. cbn. now destruct (bool_decide (a ∈ l)).
      * destruct (bool_decide (a ∈ l)) eqn:B.
        -- apply bool_decide_eq_true in B.
           rewrite bool_decide_eq_true_2; [reflexivity | now apply list_elem_of_further].
        -- apply bool_decide_eq_false in B.
           rewrite bool_decide_eq_false_2; [reflexivity|].
           intros Hin. apply elem_of_cons in Hin as [->|Hin]; contradiction.
    + destruct (IH heap) as (heap' & E & L).
      exists heap'. split; [assumption|]. intros a. rewrite L.
      destruct (decide (x = a)) as [->|Hne].
      * rewrite (bool_decide_eq_true_2 (a ∈ a :: l)) by apply list_elem_of_here.
        rewrite Hx. cbn. now destruct (bool_decide (a ∈ l)).
      * destruct (bool_decide (a ∈ l)) eqn:B.
        -- apply bool_decide_eq_true in B.
           rewrite bool_decide_eq_true_2; [reflexivity | now apply list_elem_of_further].
        -- apply bool_decide_eq_false in B.
           rewrite bool_decide_eq_false_2; [reflexivity|].
           intros Hin. apply elem_of_cons in Hin as [->|Hin]; contradiction.
Qed.

Lemma _update_handlers_pushed s (heap : gmap nat Handler) :
  complete (_current s) ->
  exists heap',
    _update_handlers s heap = Some heap'
    /\ pushed (_current s) (_handlers s) heap heap'.
Proof.
  intros Hc. destruct (complete_config_of _ Hc) as [c Ec].
  destruct (update_each_spec s c (_handlers s) heap Ec) as (heap' & E & L).
  exists heap'. split; [assumption|]. exists c. auto.
Qed.

(** The store stays well formed: no method drops a key, so no push ever
    raises [KeyError]. *)
Lemma store_ok_new : store_ok new_settings.
Proof.
  split; [apply complete_DEFAULTS|]. split; [apply complete_DEFAULTS|].
  discriminate.
Qed.

Lemma store_ok_kept s (heap : gmap nat Handler) :
  store_ok s ->
  (forall k v, exists s' heap', set k v s heap = Some (s', heap') /\ store_ok s')
  /\ (forall k v,
        exists s' heap',
          set_threshold_enabled k v s heap = Some (s', heap') /\ store_ok s')
  /\ (exists s' heap', reset_to_defaults s heap = Some (s', heap') /\ store_ok s')
  /\ (exists s' heap', cancel s heap = Some (s', heap') /\ store_ok s')
  /\ (forall a, store_ok (unregister_handler a s))
  /\ (forall a,
        exists s' heap', register_handler a s heap = Some (s', heap') /\ store_ok s').
Proof.
  intros (Hc & Hs & Hb).
  split; [|split; [|split; [|split; [|split]]]].
  - intros k v. unfold set.
    destruct (_current s !! k) eqn:Ek; [|exists s, heap; repeat split; auto].
    cbv zeta.
    match goal with |- context [_update_handlers ?s1 heap] =>
      destruct (_update_handlers_pushed s1 heap) as (heap' & E & _);
        [now apply complete_insert|]; rewrite E; exists s1, heap'
    end.
    split; [reflexivity|]. split; [now apply complete_insert | auto].
  - intros k v. unfold set_threshold_enabled.
    destruct (THRESHOLD_TOGGLE_MAP !! k) as [ek|];
      [|exists s, heap; repeat split; auto].
    cbv zeta.
    match goal with |- context [_update_handlers ?s1 heap] =>
      destruct (_update_handlers_pushed s1 heap) as (heap' & E & _);
        [now apply complete_insert|]; rewrite E; exists s1, heap'
    end.
    split; [reflexivity|]. split; [now apply complete_insert | auto].
  - unfold reset_to_defaults. cbv zeta.
    match goal with |- context [_update_handlers ?s1 heap] =>
      destruct (_update_handlers_pushed s1 heap) as (heap' & E & _);
        [apply complete_DEFAULTS|]; rewrite E; exists s1, heap'
    end.
    split; [reflexivity|]. split; [apply complete_DEFAULTS|].
    split; [exact Hs|]. cbn. intros before [= <-]. exact Hc.
  - unfold cancel. destruct (_before_reset s) as [before|] eqn:Eb; cbv zeta.
    + match goal with |- context [_update_handlers ?s1 heap] =>
        destruct (_update_handlers_pushed s1 heap) as (heap' & E & _);
          [now apply Hb|]; rewrite E; exists s1, heap'
      end.
      split; [reflexivity|]. split; [now apply Hb|].
      split; [exact Hs | discriminate].
    + match goal with |- context [_update_handlers ?s1 heap] =>
        destruct (_update_handlers_pushed s1 heap) as (heap' & E & _);
          [exact Hs|]; rewrite E; exists s1, heap'
      end.
      split; [reflexivity|]. split; [exact Hs|].
      split; [exact Hs|]. cbn. rewrite Eb. discriminate.
  - intros a. unfold unregister_handler.
    destruct (bool_decide _); repeat split; auto.
  - intros a. unfold register_handler.
    destruct (bool_decide _); [exists s, heap; repeat split; auto|].
    cbv zeta. destruct (heap !! a) as [h|];
      [|eexists _, _; split; [reflexivity|]; repeat split; auto].
    unfold _apply_to_handler. cbn [_current set__handlers].
    destruct (complete_config_of _ Hc) as [c Ec]. rewrite Ec.
    cbn [mbind option_bind].
    eexists _, _. split; [reflexivity|]. repeat split; auto.
Qed.

(** *** Reset, cancel, save *)

(** What a push writes into a handler: the entries of the dictionary. *)
Lemma config_of_configured d c h :
  config_of d = Some c -> configured d (set_config c h).
Proof.
  unfold config_of, configured.
  repeat match goal with
    | |- context [d !! ?k] =>
        let v := fresh "v" in
        destruct (d !! k) as [v|]; cbn [mbind option_bind];
          [|intros E; discriminate E]
    end.
  intros [= <-]. cbn. repeat split; reflexivity.
Qed.

Lemma pushed_configured d l (heap heap' : gmap nat Handler) :
  pushed d l heap heap' ->
  forall a h', a ∈ l -> heap' !! a = Some h' -> configured d h'.
Proof.
  intros (c & Ec & L) a h' Ha Hh'.
  rewrite L, bool_decide_eq_true_2 in Hh' by assumption.
  destruct (heap !! a) as [h|]; [|discriminate].
  injection Hh' as <-. now apply config_of_configured.
Qed.

(** C8. For a store whose dictionary is complete, [reset_to_defaults]
    followed at once by [cancel] gives back the dictionary held before the
    reset, key for key, clears the reset-undo snapshot and leaves the saved
    snapshot and the handler list alone: the store is the one before the
    reset with no reset pending. [cancel] with no reset pending restores the
    last-saved snapshot. Either way [cancel] pushes the restored configuration
    to every registered handler: afterwards each configurable attribute of a
    registered handler is the entry of the restored dictionary, the rest of
    the handler and the handlers that are not registered are as before. The
    reset in between has pushed the defaults in the same way. *)
Theorem reset_then_cancel_restores s (heap : gmap nat Handler) :
  complete (_current s) ->
  (exists s1 heap1 s2 heap2,
     reset_to_defaults s heap = Some (s1, heap1)
     /\ _current s1 = DEFAULTS
     /\ _before_reset s1 = Some (_current s)
     /\ cancel s1 heap1 = Some (s2, heap2)
     /\ _current s2 = _current s
     /\ _before_reset s2 = None
     /\ s2 = set__before_reset None s
     /\ pushed (_current s) (_handlers s) heap1 heap2
     /\ pushed DEFAULTS (_handlers s) heap heap1
     /\ (forall a h',
           a ∈ _handlers s -> heap1 !! a = Some h' -> configured DEFAULTS h')
     /\ (forall a h',
           a ∈ _handlers s -> heap2 !! a = Some h' -> configured (_current s) h'))
  /\ (_before_reset s = None ->
      complete (_saved s) ->
      exists s' heap',
        cancel s heap = Some (s', heap')
        /\ _current s' = _saved s
        /\ _before_reset s' = None
        /\ pushed (_saved s) (_handlers s) heap heap'
        /\ (forall a h',
              a ∈ _handlers s -> heap' !! a = Some h' -> configured (_saved s) h'))
  /\ (forall before,
        _before_reset s = Some before ->
        complete before ->
        exists s' heap',
          cancel s heap = Some (s', heap')
          /\ _current s' = before
          /\ _before_reset s' = None
          /\ pushed before (_handlers s) heap heap'
          /\ (forall a h',
                a ∈ _handlers s -> heap' !! a = Some h' -> configured before h')).
Proof.
  intros Hc. split; [|split].
  - destruct (_update_handlers_pushed
                (set__current DEFAULTS (set__before_reset (Some (_current s)) s)) heap)
      as (heap1 & E1 & P1); [apply complete_DEFAULTS|].
    destruct (_update_handlers_pushed (set__before_reset None s) heap1)
      as (heap2 & E2 & P2); [exact Hc|].
    exists (set__current DEFAULTS (set__before_reset (Some (_current s)) s)), heap1,
           (set__before_reset None s), heap2.
    split. { unfold reset_to_defaults. cbv zeta. rewrite E1. reflexivity. }
    split; [reflexivity|]. split; [reflexivity|].
    split.
    { unfold cancel. cbn [_before_reset set__current set__before_reset].
      change (set__before_reset None
                (set__current (_current s)
                   (set__current DEFAULTS (set__before_reset (Some (_current s)) s))))
        with (set__before_reset None s).
      cbv zeta. rewrite E2. reflexivity. }
    split; [reflexivity|]. split; [reflexivity|]. split; [reflexivity|].
    split; [exact P2|]. split; [exact P1|].
    split; [exact (pushed_configured _ _ _ _ P1) | exact (pushed_configured _ _ _ _ P2)].
  - intros Hn Hs.
    destruct (_update_handlers_pushed (set__current (_saved s) s) heap)
      as (heap' & E & P); [exact Hs|].
    exists (set__current (_saved s) s), heap'.
    split. { unfold cancel. rewrite Hn. cbv zeta. rewrite E. reflexivity. }
    split; [reflexivity|]. split; [exact Hn|].
    split; [exact P | exact (pushed_configured _ _ _ _ P)].
  - intros before Hb Hcb.
    destruct (_update_handlers_pushed
                (set__before_reset None (set__current before s)) heap)
      as (heap' & E & P); [exact Hcb|].
    exists (set__before_reset None (set__current before s)), heap'.
    split. { unfold cancel. rewrite Hb. cbv zeta. rewrite E. reflexivity. }
    split; [reflexivity|]. split; [reflexivity|].
    split; [exact P | exact (pushed_configured _ _ _ _ P)].
Qed.

Section SaveFails.

Context {W : Type} `{Env W}.

Lemma store_ok_save (w : W) s : store_ok s -> store_ok (save w s).2.2.
Proof.
  intros (Hc & Hs & Hb). unfold save.
  destruct (_save_to_krita w s) as [[] w1]; cbn; repeat split; auto.
  discriminate.
Qed.

(** C10. With Krita not there, [save] returns [False] and neither the host
    nor the store changes: current values, saved snapshot and reset-undo
    snapshot are what they were. So the [cancel] that follows is the
    [cancel] of a store that was never saved, and a reset that was pending
    is still undone by it. *)
Theorem save_without_host_changes_nothing (w : W) s (heap : gmap nat Handler) :
  krita_instance w = false ->
  save w s = (false, (w, s))
  /\ _current (save w s).2.2 = _current s
  /\ _saved (save w s).2.2 = _saved s
  /\ _before_reset (save w s).2.2 = _before_reset s
  /\ cancel (save w s).2.2 heap = cancel s heap
  /\ (forall before,
        _before_reset s = Some before ->
        complete before ->
        exists s' heap',
          cancel (save w s).2.2 heap = Some (s', heap')
          /\ _current s' = before
          /\ _before_reset s' = None).
Proof.
  intros Hk.
  assert (save w s = (false, (w, s))) as E.
  { unfold save, _save_to_krita. now rewrite Hk. }
  rewrite E. cbn [snd].
  repeat (split; [reflexivity|]).
  intros before Hb Hc.
  destruct (_update_handlers_pushed
              (set__before_reset None (set__current before s)) heap)
    as (heap' & E' & _); [exact Hc|].
  exists (set__before_reset None (set__current before s)), heap'.
  split. { unfold cancel. rewrite Hb. cbv zeta. rewrite E'. reflexivity. }
  split; reflexivity.
Qed.

End SaveFails.

(** *** The floor on enabled thresholds *)

Lemma get_enabled_threshold_count_flags s :
  get_enabled_threshold_count s =
    Z.b2z (flag s "hold_enabled") + Z.b2z (flag s "slow_tap_enabled")
    + Z.b2z (flag s "multiplier_enabled").
Proof.
  unfold get_enabled_threshold_count.
  let l := eval vm_compute in ((map_to_list THRESHOLD_TOGGLE_MAP).*2) in
  change ((map_to_list THRESHOLD_TOGGLE_MAP).*2) with l.
  cbn [foldl]. fold (flag s "hold_enabled") (flag s "slow_tap_enabled")
    (flag s "multiplier_enabled").
  destruct (flag s "hold_enabled"), (flag s "slow_tap_enabled"),
    (flag s "multiplier_enabled"); reflexivity.
Qed.

Lemma THRESHOLD_TOGGLE_MAP_values k enabled_key :
  THRESHOLD_TOGGLE_MAP !! k = Some enabled_key ->
  enabled_key = "hold_enabled" \/ enabled_key = "slow_tap_enabled"
  \/ enabled_key = "multiplier_enabled".
Proof.
  intros Hk. unfold THRESHOLD_TOGGLE_MAP in Hk.
  apply elem_of_list_to_map_2 in Hk.
  repeat (apply elem_of_cons in Hk as [Hk|Hk]; [inversion Hk; auto|]).
  now apply elem_of_nil in Hk.
Qed.

(** Disabling one of two or more enabled thresholds leaves one enabled;
    enabling never lowers the count. *)
Lemma count_after_insert s enabled_key b :
  enabled_key = "hold_enabled" \/ enabled_key = "slow_tap_enabled"
  \/ enabled_key = "multiplier_enabled" ->
  (b = true \/ 2 <= get_enabled_threshold_count s) ->
  1 <= get_enabled_threshold_count
         (set__current (<[enabled_key := VBool b]> (_current s)) s).
Proof.
  intros Hk Hb. rewrite !get_enabled_threshold_count_flags in *.
  unfold flag in *. cbn [_current set__current].
  destruct Hk as [-> | [-> | ->]];
    rewrite lookup_insert_eq, !lookup_insert_ne by discriminate;
    cbn [default to_bool];
    repeat match goal with
      | |- context [to_bool (default (VBool true) (_current s !! ?k))] =>
          let f := fresh "f" in
          set (f := to_bool (default (VBool true) (_current s !! k))) in *;
          clearbody f
      | _ : context [to_bool (default (VBool true) (_current s !! ?k))] |- _ =>
          let f := fresh "f" in
          set (f := to_bool (default (VBool true) (_current s !! k))) in *;
          clearbody f
      end;
    repeat match goal with f : bool |- _ => destruct f end;
    cbn [Z.b2z] in *; destruct Hb; (discriminate || lia).
Qed.

Lemma _on_checkbox_changed_floor state row s (heap : gmap nat Handler) :
  complete (_current s) ->
  1 <= get_enabled_threshold_count s ->
  exists row' s' heap',
    _on_checkbox_changed state row s heap = Some (row', s', heap')
    /\ complete (_current s')
    /\ 1 <= get_enabled_threshold_count s'
    /\ (state <> Qt_Checked ->
        get_enabled_threshold_count s <= 1 ->
        s' = s /\ heap' = heap
        /\ (_updating row = false -> checkbox_isChecked row' = true)).
Proof.
  intros Hc Hn. unfold _on_checkbox_changed.
  destruct (_updating row) eqn:Hu.
  { exists row, s, heap. repeat split; auto. discriminate. }
  destruct (state =? Qt_Checked) eqn:Hs; cbn [negb andb].
  - apply Z.eqb_eq in Hs. unfold set_threshold_enabled. cbn [key].
    destruct (THRESHOLD_TOGGLE_MAP !! key row) as [ek|] eqn:Hk.
    + cbv zeta. cbn [to_bool].
      destruct (_update_handlers_pushed
                  (set__current (<[ek := VBool true]> (_current s)) s) heap)
        as (heap' & E & _); [now apply complete_insert|].
      rewrite E. cbn [mbind option_bind fst snd].
      eexists _, _, _. split; [reflexivity|].
      split; [now apply complete_insert|].
      split; [|intros Hne; contradiction].
      apply count_after_insert; [|auto].
      now apply (THRESHOLD_TOGGLE_MAP_values (key row)).
    + cbn [mbind option_bind fst snd].
      eexists _, _, _. split; [reflexivity|].
      split; [assumption|]. split; [assumption|]. intros Hne; contradiction.
  - destruct (get_enabled_threshold_count s <=? 1) eqn:Hle.
    + eexists _, _, _. split; [reflexivity|]. repeat split; auto.
    + apply Z.leb_gt in Hle. unfold set_threshold_enabled. cbn [key].
      destruct (THRESHOLD_TOGGLE_MAP !! key row) as [ek|] eqn:Hk.
      * cbv zeta. cbn [to_bool].
        destruct (_update_handlers_pushed
                    (set__current (<[ek := VBool false]> (_current s)) s) heap)
          as (heap' & E & _); [now apply complete_insert|].
        rewrite E. cbn [mbind option_bind fst snd].
        eexists _, _, _. split; [reflexivity|].
        split; [now apply complete_insert|].
        split; [|intros _ Hle'; lia].
        apply count_after_insert; [|right; lia].
        now apply (THRESHOLD_TOGGLE_MAP_values (key row)).
      * cbn [mbind option_bind fst snd].
        eexists _, _, _. split; [reflexivity|].
        split; [assumption|]. split; [assumption|]. intros _ Hle'; lia.
Qed.

(** C3, amended. The floor is kept by the check box of the docker, not by the
    store. Starting from a complete store with at least one of
    [hold_enabled], [slow_tap_enabled], [multiplier_enabled] true, every
    sequence of check box changes runs through and leaves at least one of the
    three true: an uncheck that arrives when at most one is enabled leaves
    the store as it is and re-checks the box. *)
Theorem checkbox_keeps_a_threshold_enabled evs s (heap : gmap nat Handler) :
  complete (_current s) ->
  1 <= get_enabled_threshold_count s ->
  (exists s' heap',
     checkbox_changes evs s heap = Some (s', heap')
     /\ 1 <= get_enabled_threshold_count s'
     /\ (flag s' "hold_enabled" = true \/ flag s' "slow_tap_enabled" = true
         \/ flag s' "multiplier_enabled" = true))
  /\ (forall row state,
        _updating row = false ->
        state <> Qt_Checked ->
        get_enabled_threshold_count s <= 1 ->
        exists row',
          _on_checkbox_changed state row s heap = Some (row', s, heap)
          /\ checkbox_isChecked row' = true).
Proof.
  intros Hc Hn. split.
  - revert s heap Hc Hn.
    induction evs as [|[row state] evs IH]; intros s heap Hc Hn.
    + exists s, heap. split; [reflexivity|]. split; [assumption|].
      rewrite get_enabled_threshold_count_flags in Hn.
      destruct (flag s "hold_enabled"), (flag s "slow_tap_enabled"),
        (flag s "multiplier_enabled"); cbn in Hn; auto; lia.
    + destruct (_on_checkbox_changed_floor state row s heap Hc Hn)
        as (row' & s' & heap' & E & Hc' & Hn' & _).
      cbn [checkbox_changes]. rewrite E. cbn [mbind option_bind fst snd].
      now apply IH.
  - intros row state Hu Hs Hle.
    destruct (_on_checkbox_changed_floor state row s heap Hc Hn)
      as (row' & s' & heap' & E & _ & _ & R).
    destruct (R Hs Hle) as (-> & -> & Hrow).
    exists row'. auto.
Qed.

(** * The code run on concrete inputs *)

(** C2 as stated fails. Tap mode enabled, hold mode disabled, burst count 3,
    interval 0.015 s: the key is pressed and released at once, then the
    burst timer is given three chances to fire. One trigger is fired in all,
    not three, and the brush has moved by one pixel; running the slot
    [_on_burst_timer] on the released handler all the same fires nothing
    either. *)
Lemma early_release_fires_one_trigger :
  let k := run [StartPress 0%nat; EndPress 0%nat;
                HostMoves (sim_host (100015 # 1000) (Some 49%Q));
                BurstTimerTimeout 0%nat; BurstTimerTimeout 0%nat;
                BurstTimerTimeout 0%nat]
               (sim_host 100 (Some 50%Q), {[0%nat := tap_handler]}) in
  trigger_count <$> k.2 !! 0%nat = Some 1
  /\ trigger_count <$> k.2 !! 0%nat <> Some 3
  /\ sim_brush k.1 = Some 49%Q
  /\ (fun h => trigger_count (_on_burst_timer k.1 h).2) <$> k.2 !! 0%nat = Some 1.
Proof.
  vm_compute. split; [reflexivity|]. split; [discriminate|]. split; reflexivity.
Qed.

(** C3 as stated fails. Through the store alone the three thresholds are
    disabled one after the other; every call takes effect and none of the
    three flags is left true. *)
Lemma store_disables_every_threshold :
  (r1 ← set_threshold_enabled "hold_detect_time" (VBool false) new_settings ∅;
   r2 ← set_threshold_enabled "slow_tap_threshold" (VBool false) r1.1 r1.2;
   r3 ← set_threshold_enabled "multiplier_threshold" (VBool false) r2.1 r2.2;
   Some (get_enabled_threshold_count r3.1,
         _current r3.1 !! "hold_enabled",
         _current r3.1 !! "slow_tap_enabled",
         _current r3.1 !! "multiplier_enabled"))
  = Some (0, Some (VBool false), Some (VBool false), Some (VBool false)).
Proof. vm_compute. reflexivity. Qed.


(** ** The theorems at concrete inputs *)

(** C1 on the two handlers of a window: [increase] is pressed and its poll
    timer fires, then [decrease] is pressed. *)
Lemma paired_handlers_never_both_pressed_witness :
  (0%nat <> 1%nat /\ wired pair_heap 0 1 /\ exclusive pair_heap 0 1)
  /\ let k := run [StartPress 1%nat; TimerTimeout 1%nat]
                  (sim_host 100 (Some 50%Q), pair_heap) in
     pressed k.2 1 = true
     /\ ~ (pressed k.2 0 = true /\ pressed k.2 1 = true)
     /\ pressed (start_press 0 k).2 0 = true
     /\ pressed (start_press 0 k).2 1 = false.
Proof.
  assert (0%nat <> 1%nat) as Hne by discriminate.
  assert (wired pair_heap 0 1) as Hw.
  { eexists _, _. repeat split; reflexivity. }
  assert (exclusive pair_heap 0 1) as Hex.
  { intros [X _]. vm_compute in X. discriminate. }
  split; [auto|].
  destruct (paired_handlers_never_both_pressed 0 1 (sim_host 100 (Some 50%Q))
              pair_heap [StartPress 1%nat; TimerTimeout 1%nat] Hne Hw Hex)
    as (_ & Hnot & Hstop).
  split; [vm_compute; reflexivity|].
  split; [exact Hnot|].
  destruct Hstop as (ha & hb & _ & _ & _ & _ & _ & _ & Eb & Pb & _ & _ & Pa);
    [vm_compute; reflexivity|].
  split; [exact Pa|].
  unfold pressed. rewrite Eb. exact Pb.
Defined.

(** C2, amended, at the configuration of the claim. *)
Lemma release_cancels_burst_witness :
  (({[0%nat := tap_handler]} : gmap nat Handler) !! 0%nat = Some tap_handler
   /\ is_pressed tap_handler = false)
  /\ exists h2,
       (call 0 end_press
          (sim_host 100 (Some 49%Q),
           (start_press 0 (sim_host 100 (Some 50%Q), {[0%nat := tap_handler]})).2)).2
         !! 0%nat = Some h2
       /\ trigger_count h2 = 1
       /\ forall ws : list SimHost, burst_timer_fires ws h2 = h2.
Proof.
  assert (({[0%nat := tap_handler]} : gmap nat Handler) !! 0%nat = Some tap_handler)
    as Ha by reflexivity.
  assert (is_pressed tap_handler = false) as Hp by reflexivity.
  split; [auto|].
  destruct (release_cancels_burst 0 (sim_host 100 (Some 50%Q))
              (sim_host 100 (Some 49%Q)) {[0%nat := tap_handler]} tap_handler Ha Hp)
    as (h1 & h2 & _ & _ & _ & E & _ & T & _ & _ & _ & F & _ & _).
  exists h2. auto.
Defined.

(** C3, amended: the three boxes are unchecked one after the other on the
    default store; one threshold stays enabled. *)
Lemma checkbox_keeps_a_threshold_enabled_witness :
  (complete (_current new_settings) /\ 1 <= get_enabled_threshold_count new_settings)
  /\ exists s' heap',
       checkbox_changes
         [ ({| key := "hold_detect_time"; checkbox_isChecked := false;
               controls_enabled := true; _updating := false |}, 0);
           ({| key := "slow_tap_threshold"; checkbox_isChecked := false;
               controls_enabled := true; _updating := false |}, 0);
           ({| key := "multiplier_threshold"; checkbox_isChecked := false;
               controls_enabled := true; _updating := false |}, 0) ]
         new_settings pair_heap = Some (s', heap')
       /\ 1 <= get_enabled_threshold_count s'.
Proof.
  assert (complete (_current new_settings)) as Hc by apply complete_DEFAULTS.
  assert (1 <= get_enabled_threshold_count new_settings) as Hn
    by (vm_compute; discriminate).
  split; [auto|].
  destruct (checkbox_keeps_a_threshold_enabled
              [ ({| key := "hold_detect_time"; checkbox_isChecked := false;
                    controls_enabled := true; _updating := false |}, 0);
                ({| key := "slow_tap_threshold"; checkbox_isChecked := false;
                    controls_enabled := true; _updating := false |}, 0);
                ({| key := "multiplier_threshold"; checkbox_isChecked := false;
                    controls_enabled := true; _updating := false |}, 0) ]
              new_settings pair_heap Hc Hn) as ((s' & heap' & E & N & _) & _).
  exists s', heap'. auto.
Defined.



(** C6: a forced stop of a pressed handler that was last released at
    99.95 s; the press at 100.0 s is still a quick-succession tap. *)
Lemma force_stop_keeps_release_time_witness :
  let w := sim_host 100 (Some 50%Q) in
  let h := set_is_pressed true tapped_handler in
  last_release_time (force_stop "paired handler starting" h) = (9995 # 100)%Q
  /\ last_release_time (end_press w h).2 = 100%Q
  /\ burst_of (W := SimHost) 9 (1 # 1000)
       (start_press_self w (force_stop "paired handler starting" h)).2.
Proof.
  intros w h.
  destruct (force_stop_keeps_release_time "paired handler starting" w w w h)
    as ((_ & _ & _ & _ & _ & F) & E & _ & B).
  split; [exact F|].
  split; [rewrite (E eq_refl); reflexivity|].
  apply B; [reflexivity | reflexivity | | |]; vm_compute; reflexivity.
Defined.

(** C7 at the numbers of the specification: 0.05 s since the last release,
    tap threshold 0.1 s, multiplier threshold 0.15 s, multiplier 3. The brush
    is at 50 px and the action takes one pixel off: the press leaves it at
    49 px, the eight firings of the burst timer that follow at 41 px, and it
    is still at 41 px, with nine triggers counted, when the timer has been
    fired twenty times. *)
Lemma start_press_selects_burst_witness :
  let w := sim_host 100 (Some 50%Q) in
  let k := start_press 0 (w, {[0%nat := tapped_handler]}) in
  (({[0%nat := tapped_handler]} : gmap nat Handler) !! 0%nat = Some tapped_handler
   /\ is_pressed tapped_handler = false
   /\ SLOW_TAP_ENABLED (config tapped_handler) = true)
  /\ exists h',
       k.2 !! 0%nat = Some h'
       /\ burst_of (W := SimHost) 9 (1 # 1000) h'
       /\ burst_on_host "decrease_brush_size" false 9 w (k.1, h')
       /\ sim_brush k.1 = Some 49%Q
       /\ sim_brush (burst_timer_runs 8 (k.1, h')).1 = Some 41%Q
       /\ sim_brush (burst_timer_runs 20 (k.1, h')).1 = Some 41%Q
       /\ trigger_count (burst_timer_runs 20 (k.1, h')).2 = 9.
Proof.
  intros w k.
  assert (({[0%nat := tapped_handler]} : gmap nat Handler) !! 0%nat
          = Some tapped_handler) as Ha by reflexivity.
  assert (is_pressed tapped_handler = false) as Hp by reflexivity.
  assert (SLOW_TAP_ENABLED (config tapped_handler) = true) as Ht by reflexivity.
  split; [auto|].
  destruct (start_press_selects_burst 0 w {[0%nat := tapped_handler]}
              tapped_handler Ha Hp Ht) as (h' & E & M & _).
  fold k in E, M.
  assert (0 < last_release_time tapped_handler)%Q as Q1
    by (vm_compute; reflexivity).
  assert ((time_time w).1 - last_release_time tapped_handler
          < SLOW_TAP_THRESHOLD (config tapped_handler))%Q as Q2
    by (vm_compute; reflexivity).
  assert ((time_time w).1 - last_release_time tapped_handler
          < MULTIPLIER_THRESHOLD (config tapped_handler))%Q as Q3
    by (vm_compute; reflexivity).
  destruct (M Q1 Q2 eq_refl Q3) as [B Hst].
  exists h'. split; [exact E|]. split; [exact B|]. split; [exact Hst|].
  clear B Hst M.
  pose proof (start_press_idle_self 0 w {[0%nat := tapped_handler]}
                tapped_handler Ha Hp) as E'.
  fold k in E'.
  remember (start_press_self w tapped_handler).2 as h0 eqn:Eh0.
  assert (h' = h0) as -> by congruence.
  subst h0. clear E E'.
  split; [vm_compute; reflexivity|].
  split; [vm_compute; reflexivity|].
  split; vm_compute; reflexivity.
Defined.

(** C8 on the edited store, with the two handlers of a window registered
    as the constructor leaves them. The tap burst has five steps. The reset
    puts the default of three into the store and into the decrease handler,
    whose hold threshold goes from the 0.035 s of the constructor to the
    default of 0.2 s; the cancel brings the five back, in the store and in
    both handlers. *)
Lemma reset_then_cancel_restores_witness :
  complete (_current edited_settings)
  /\ exists s1 heap1 s2 heap2,
       reset_to_defaults edited_settings pair_heap = Some (s1, heap1)
       /\ _current s1 !! "slow_burst_count" = Some (VInt 3)
       /\ cancel s1 heap1 = Some (s2, heap2)
       /\ _current s2 = _current edited_settings
       /\ _before_reset s2 = None
       /\ (exists h1,
             heap1 !! 0%nat = Some h1
             /\ SLOW_BURST_COUNT (config h1) = 3
             /\ HOLD_DETECT_TIME (config h1) = (200 # 1000)%Q)
       /\ (exists h2,
             heap2 !! 0%nat = Some h2
             /\ SLOW_BURST_COUNT (config h2) = 5
             /\ HOLD_DETECT_TIME (config h2) = (200 # 1000)%Q
             /\ MULTIPLIER_BURST_COUNT (config h2) = 3
             /\ action_name h2 = "decrease_brush_size")
       /\ (exists h2,
             heap2 !! 1%nat = Some h2
             /\ SLOW_BURST_COUNT (config h2) = 5
             /\ action_name h2 = "increase_brush_size").
Proof.
  assert (complete (_current edited_settings)) as Hc
    by (apply complete_insert, complete_DEFAULTS).
  split; [exact Hc|].
  destruct (reset_then_cancel_restores edited_settings pair_heap Hc)
    as ((s1 & heap1 & s2 & heap2 & E1 & D & _ & E2 & C & B & _ & P2 & P1 & C1 & C2)
        & _).
  exists s1, heap1, s2, heap2.
  split; [exact E1|]. split; [rewrite D; reflexivity|].
  split; [exact E2|]. split; [exact C|]. split; [exact B|].
  assert (0%nat ∈ _handlers edited_settings) as In0 by (cbn; repeat constructor).
  assert (1%nat ∈ _handlers edited_settings) as In1 by (cbn; repeat constructor).
  destruct P1 as (c1 & _ & L1). destruct P2 as (c2 & _ & L2).
  pose proof (L1 0%nat) as H10. pose proof (L1 1%nat) as H11.
  pose proof (L2 0%nat) as H20. pose proof (L2 1%nat) as H21.
  rewrite bool_decide_eq_true_2 in H10, H20 by exact In0.
  rewrite bool_decide_eq_true_2 in H11, H21 by exact In1.
  rewrite H10 in H20. rewrite H11 in H21.
  change (pair_heap !! 0%nat)
    with (Some (set_paired_handler (Some 1%nat) (new_handler "decrease_brush_size")))
    in H10, H20.
  change (pair_heap !! 1%nat)
    with (Some (set_paired_handler (Some 0%nat) (new_handler "increase_brush_size")))
    in H11, H21.
  cbn [fmap option_fmap option_map] in H10, H11, H20, H21.
  split; [|split].
  - eexists. split; [exact H10|].
    destruct (C1 _ _ In0 H10)
      as (T1 & _ & _ & _ & _ & _ & _ & _ & _ & _ & T11 & _).
    split.
    + change (Some 3 = Some (SLOW_BURST_COUNT c1)) in T11.
      cbn [config set_config]. congruence.
    + change (Some (200 # 1000)%Q = Some (HOLD_DETECT_TIME c1)) in T1.
      cbn [config set_config]. congruence.
  - eexists. split; [exact H20|].
    destruct (C2 _ _ In0 H20)
      as (T1 & _ & _ & _ & _ & _ & _ & _ & _ & _ & T11 & _ & T13 & _).
    split; [|split; [|split]].
    + change (Some 5 = Some (SLOW_BURST_COUNT c2)) in T11.
      cbn [config set_config]. congruence.
    + change (Some (200 # 1000)%Q = Some (HOLD_DETECT_TIME c2)) in T1.
      cbn [config set_config]. congruence.
    + change (Some 3 = Some (MULTIPLIER_BURST_COUNT c2)) in T13.
      cbn [config set_config]. congruence.
    + reflexivity.
  - eexists. split; [exact H21|].
    destruct (C2 _ _ In1 H21)
      as (_ & _ & _ & _ & _ & _ & _ & _ & _ & _ & T11 & _).
    split.
    + change (Some 5 = Some (SLOW_BURST_COUNT c2)) in T11.
      cbn [config set_config]. congruence.
    + reflexivity.
Defined.

(** C9: pressed at 100.0 s with no poll-timer activity since, looked at
    0.6 s later. *)
Lemma stale_state_recovery_witness :
  let w := sim_host (1006 # 10) (Some 50%Q) in
  let h := set_last_timer_activity 100 (set_is_pressed true tap_handler) in
  (is_stale_state w h).1 = true
  /\ (check_and_fix_stale_state w h).1 = true
  /\ is_pressed (check_and_fix_stale_state w h).2.2 = false.
Proof.
  intros w h.
  destruct (stale_state_recovery w h) as (I & Fix & _).
  assert ((is_stale_state w h).1 = true) as Hs.
  { apply I. split; [reflexivity | vm_compute; reflexivity]. }
  split; [exact Hs|].
  destruct (Fix Hs) as (R & _ & P & _). auto.
Defined.

(** C10: Krita is not there, a reset is pending. *)
Lemma save_without_host_changes_nothing_witness :
  let w := {| sim_time := 100; sim_brush := None; sim_krita := false;
              sim_written := [] |} in
  let s := set__before_reset (Some (_current edited_settings))
             (set__current DEFAULTS edited_settings) in
  krita_instance w = false
  /\ save w s = (false, (w, s))
  /\ exists s' heap',
       cancel (save w s).2.2 pair_heap = Some (s', heap')
       /\ _current s' = _current edited_settings.
Proof.
  intros w s.
  assert (krita_instance w = false) as Hk by reflexivity.
  split; [exact Hk|].
  destruct (save_without_host_changes_nothing w s pair_heap Hk)
    as (E & _ & _ & _ & _ & U).
  split; [exact E|].
  destruct (U (_current edited_settings) eq_refl) as (s' & heap' & C & R & _).
  { apply complete_insert, complete_DEFAULTS. }
  exists s', heap'. auto.
Defined.

